(** * Astarte device SDK (Go): the device package

    A shallow embedding of [device/device.go]: device construction, the
    interface registry ([AddInterface], [RemoveInterface]) and the
    connection handshake run by [Connect].

    The packages the file imports (astarte-go's [interfaces], [misc] and
    [client], paho's [mqtt], the Go standard library) and the methods of
    [Device] that live in other files of the package are not part of the
    embedded source: they appear as interfaces whose behaviour is a
    parameter of every definition. *)

From stdpp Require Import base strings gmap list.
From Stdlib Require Import ZArith Lia Ascii.

Local Open Scope Z_scope.
Local Open Scope string_scope.

(** A non-nil Go [error] is represented by its message; a value of Go type
    [error] is an [option error], [None] standing for [nil]. *)
Definition error := string.

(** [err != nil] and [err == nil]. *)
Definition non_nil {A} (err : option A) : bool :=
  match err with Some _ => true | None => false end.

Definition is_nil {A} (err : option A) : bool :=
  match err with Some _ => false | None => true end.

(** ** Package [interfaces] (astarte-go) *)

Module interfaces.

(** The enumerated fields are string-typed in Go
    ([type AstarteInterfaceType string], ...). *)
Definition AstarteInterfaceType := string.
Definition AstarteInterfaceOwnership := string.
Definition AstarteInterfaceAggregation := string.
Definition AstarteMappingReliability := string.
Definition AstarteMappingRetention := string.
Definition AstarteMappingDatabaseRetentionPolicy := string.

Record AstarteMapping := {
  Endpoint : string;
  Reliability : AstarteMappingReliability;
  Retention : AstarteMappingRetention;
  DatabaseRetentionPolicy : AstarteMappingDatabaseRetentionPolicy
}.

Record AstarteInterface := {
  Name : string;
  MajorVersion : Z;
  MinorVersion : Z;
  Type_ : AstarteInterfaceType;
  Ownership : AstarteInterfaceOwnership;
  Aggregation : AstarteInterfaceAggregation;
  Mappings : list AstarteMapping
}.

(** The [IsValid() error] method of each enumerated type. *)
Class Validators := {
  AstarteInterfaceAggregation_IsValid : AstarteInterfaceAggregation -> option error;
  AstarteInterfaceType_IsValid : AstarteInterfaceType -> option error;
  AstarteInterfaceOwnership_IsValid : AstarteInterfaceOwnership -> option error;
  AstarteMappingReliability_IsValid : AstarteMappingReliability -> option error;
  AstarteMappingRetention_IsValid : AstarteMappingRetention -> option error;
  AstarteMappingDatabaseRetentionPolicy_IsValid :
    AstarteMappingDatabaseRetentionPolicy -> option error
}.

End interfaces.

(** ** Package [mqtt] (paho) *)

Module mqtt.

(** [mqtt.Token]: [Wait] blocks until the operation completes,
    [WaitTimeout] gives up after a duration (in nanoseconds, as
    [time.Duration]) and tells whether the operation completed. *)
Class Token (T : Type) := {
  Wait : T -> bool;
  WaitTimeout : T -> Z -> bool;
  Error : T -> option error
}.

(** [mqtt.Client], as far as device.go uses it. [M] is the state of the
    client object behind the handle; [Connect] yields the client as it is
    once its token has been waited on. [Disconnect] takes the quiesce
    time in milliseconds. *)
Class Client (M T : Type) := {
  IsConnected : M -> bool;
  Connect : M -> M * T;
  Disconnect : M -> Z -> M
}.

End mqtt.

(** ** Package [client] (astarte-go) and [misc] *)

Module misc.
Inductive AstarteService := Pairing | AppEngine | RealmManagement | Housekeeping.

(** The device-ID rule of the platform. *)
Class DeviceIDRule := {
  IsValidAstarteDeviceID : string -> bool
}.
End misc.

Module client.
Record Client := {
  urls : list (misc.AstarteService * string);
  token : string
}.

Definition SetToken (c : Client) (t : string) : Client :=
  {| urls := urls c; token := t |}.

(** The constructor of API clients, called with a nil HTTP client. *)
Class Constructor := {
  NewClientWithIndividualURLs : list (misc.AstarteService * string) -> Client + error
}.
End client.

(** ** Package [ioutil] (Go standard library) *)

Module ioutil.
(** [TempDir dir pattern] creates a fresh directory and returns its
    name, or fails and creates nothing. *)
Class FileSystem := {
  TempDir : string -> string -> string * option error
}.
End ioutil.

(** ** The [Device] struct

    The four handler fields and [RootCAs] are never read by device.go and
    are left out. *)

Record Device (M : Type) := mkDevice {
  deviceID : string;
  realm : string;
  persistencyDir : string;
  m : option M;
  interfaces : gmap string interfaces.AstarteInterface;
  astarteAPIClient : option client.Client;
  AutoReconnect : bool
}.
Arguments mkDevice {M}.
Arguments deviceID {M}.
Arguments realm {M}.
Arguments persistencyDir {M}.
Arguments m {M}.
Arguments interfaces {M}.
Arguments astarteAPIClient {M}.
Arguments AutoReconnect {M}.

Definition set_interfaces {M} (d : Device M)
    (r : gmap string interfaces.AstarteInterface) : Device M :=
  mkDevice (deviceID d) (realm d) (persistencyDir d) (m d) r
           (astarteAPIClient d) (AutoReconnect d).

Definition set_m {M} (d : Device M) (c : option M) : Device M :=
  mkDevice (deviceID d) (realm d) (persistencyDir d) c (interfaces d)
           (astarteAPIClient d) (AutoReconnect d).

Definition set_astarteAPIClient {M} (d : Device M)
    (c : option client.Client) : Device M :=
  mkDevice (deviceID d) (realm d) (persistencyDir d) (m d) (interfaces d)
           c (AutoReconnect d).

(** ** The interface registry *)

Section Registry.
Context {M : Type} `{V : interfaces.Validators}.
Import interfaces.

(** The body of [for _, mapping := range astarteInterface.Mappings]. *)
Fixpoint validate_mappings (mappings : list AstarteMapping) : option error :=
  match mappings with
  | [] => None
  | mapping :: rest =>
      match AstarteMappingReliability_IsValid (Reliability mapping) with
      | Some err => Some err
      | None =>
      match AstarteMappingRetention_IsValid (Retention mapping) with
      | Some err => Some err
      | None =>
      match AstarteMappingDatabaseRetentionPolicy_IsValid
              (DatabaseRetentionPolicy mapping) with
      | Some err => Some err
      | None => validate_mappings rest
      end end end
  end.

(** [AddInterface]: the device after the call and the returned error. *)
Definition AddInterface (d : Device M) (astarteInterface : AstarteInterface)
    : Device M * option error :=
  match AstarteInterfaceAggregation_IsValid (Aggregation astarteInterface) with
  | Some err => (d, Some err)
  | None =>
  match AstarteInterfaceType_IsValid (Type_ astarteInterface) with
  | Some err => (d, Some err)
  | None =>
  match AstarteInterfaceOwnership_IsValid (Ownership astarteInterface) with
  | Some err => (d, Some err)
  | None =>
  match validate_mappings (Mappings astarteInterface) with
  | Some err => (d, Some err)
  | None =>
      (set_interfaces d
         (<[Name astarteInterface := astarteInterface]> (interfaces d)),
       None)
  end end end end.

(** [RemoveInterface] *)
Definition RemoveInterface (d : Device M) (astarteInterface : AstarteInterface)
    : Device M :=
  set_interfaces d (delete (Name astarteInterface) (interfaces d)).

(** *** The validation order, as the specification words it

    The checks of one interface in the order aggregation, type,
    ownership, then reliability, retention and database retention policy
    of each mapping in turn. *)
Definition mapping_checks (mapping : AstarteMapping) : list (option error) :=
  [ AstarteMappingReliability_IsValid (Reliability mapping);
    AstarteMappingRetention_IsValid (Retention mapping);
    AstarteMappingDatabaseRetentionPolicy_IsValid
      (DatabaseRetentionPolicy mapping) ].

Definition validation_order (i : AstarteInterface) : list (option error) :=
  [ AstarteInterfaceAggregation_IsValid (Aggregation i);
    AstarteInterfaceType_IsValid (Type_ i);
    AstarteInterfaceOwnership_IsValid (Ownership i) ]
  ++ concat (map mapping_checks (Mappings i)).

(** The first failed check of a list of checks. *)
Fixpoint first_error (checks : list (option error)) : option error :=
  match checks with
  | [] => None
  | Some err :: _ => Some err
  | None :: rest => first_error rest
  end.

Definition mapping_valid (mapping : AstarteMapping) : Prop :=
  AstarteMappingReliability_IsValid (Reliability mapping) = None /\
  AstarteMappingRetention_IsValid (Retention mapping) = None /\
  AstarteMappingDatabaseRetentionPolicy_IsValid
    (DatabaseRetentionPolicy mapping) = None.

(** Every enumerated field of the interface has a legal value. *)
Definition interface_valid (i : AstarteInterface) : Prop :=
  AstarteInterfaceAggregation_IsValid (Aggregation i) = None /\
  AstarteInterfaceType_IsValid (Type_ i) = None /\
  AstarteInterfaceOwnership_IsValid (Ownership i) = None /\
  Forall mapping_valid (Mappings i).

(** At least one enumerated field of the interface is rejected by its
    [IsValid]. *)
Definition has_invalid_field (i : AstarteInterface) : Prop :=
  AstarteInterfaceAggregation_IsValid (Aggregation i) <> None \/
  AstarteInterfaceType_IsValid (Type_ i) <> None \/
  AstarteInterfaceOwnership_IsValid (Ownership i) <> None \/
  Exists (fun mapping => ~ mapping_valid mapping) (Mappings i).

(** The registry holds only interfaces that passed validation, each under
    its own name. *)
Definition registry_ok (d : Device M) : Prop :=
  map_Forall (fun name i => Name i = name /\ interface_valid i) (interfaces d).

End Registry.

(** ** The handshake task

    [Connect] starts a goroutine and returns at once; what is embedded is
    the body of that goroutine. Everything it does to the outside is
    recorded, in order, as a list of events. *)

(** A channel of Go type [chan<- error] is named by a number; [nil] is
    [None]. *)
Definition chan := nat.

(** [time.Second], in [time.Duration] units (nanoseconds). *)
Definition Second : Z := 1000000000.

Inductive Event :=
| Println (args : list string)            (* fmt.Println(args...) *)
| Send (ch : chan) (v : option error)     (* ch <- v *)
| Sleep (d : Z)                           (* time.Sleep(d) *)
| Call_getBrokerURL                       (* pairing: d.getBrokerURL() *)
| Call_ensureCertificate                  (* pairing: d.ensureCertificate() *)
| Call_initializeMQTTClient (brokerURL : string)
| Call_setupSubscriptions
| Call_sendIntrospection
| M_IsConnected                           (* d.m.IsConnected() *)
| M_Connect                               (* d.m.Connect() *)
| M_Disconnect (quiesce : Z)              (* d.m.Disconnect(quiesce) *)
| Token_Wait
| Token_WaitTimeout (d : Z)
| Token_Error
| Ioutil_TempDir (dir pattern name : string) (err : option error)
| Client_NewClientWithIndividualURLs (urls : list (misc.AstarteService * string)).

(** The methods of [Device] that device.go calls and other files of the
    package define. [getBrokerURL] is given by the outcome of its n-th
    call (counted from 0 over the life of the device), so that any
    sequence of failures and successes of the pairing service can be
    described. [initializeMQTTClient] builds the client handle for the
    broker and stores it in [d.m], or fails. [setupSubscriptions] and
    [sendIntrospection] read the registry and act on the client. *)
Class DeviceMethods (M : Type) := {
  getBrokerURL : nat -> string * option error;
  ensureCertificate : option error;
  initializeMQTTClient : string -> M + error;
  setupSubscriptions :
    gmap string interfaces.AstarteInterface -> M -> M * option error;
  sendIntrospection :
    gmap string interfaces.AstarteInterface -> M -> M * option error
}.

(** What a task has done and left behind. *)
Record World (M : Type) := mkWorld {
  dev : Device M;           (* the device the task runs on *)
  brokerCalls : nat;        (* calls of getBrokerURL made so far *)
  trace : list Event        (* events so far, oldest first *)
}.
Arguments mkWorld {M}.
Arguments dev {M}.
Arguments brokerCalls {M}.
Arguments trace {M}.

(** How a piece of the goroutine ends: it falls through to the next
    statement, it executes [return], it is still looping when the budget of
    loop iterations is used up, or it dereferences a nil [d.m]. *)
Inductive Outcome (M A : Type) :=
| Continue (a : A) (w : World M)
| Returned (w : World M)
| OutOfFuel (w : World M)
| Panicked (w : World M).
Arguments Continue {M A}.
Arguments Returned {M A}.
Arguments OutOfFuel {M A}.
Arguments Panicked {M A}.

Definition Task (M A : Type) := World M -> Outcome M A.

Definition ret {M A} (a : A) : Task M A := fun w => Continue a w.

Definition bind {M A B} (c : Task M A) (k : A -> Task M B) : Task M B :=
  fun w =>
    match c w with
    | Continue a w' => k a w'
    | Returned w' => Returned w'
    | OutOfFuel w' => OutOfFuel w'
    | Panicked w' => Panicked w'
    end.

Declare Scope task_scope.
Delimit Scope task_scope with task.
Notation "'let*' x ':=' c 'in' k" := (bind c (fun x => k))
  (at level 10, x name, c at level 100, k at level 200, only parsing)
  : task_scope.
Notation "'let*' ' pat ':=' c 'in' k" :=
  (bind c (fun x => match x with pat => k end))
  (at level 10, pat pattern, c at level 100, k at level 200, only parsing)
  : task_scope.
Notation "c ;;; k" := (bind c (fun _ => k))
  (at level 100, k at level 200, only parsing, right associativity) : task_scope.

(** The world of an outcome, and whether the task has come to an end. *)
Definition world_of {M A} (o : Outcome M A) : World M :=
  match o with
  | Continue _ w | Returned w | OutOfFuel w | Panicked w => w
  end.

Definition terminated {M A} (o : Outcome M A) : bool :=
  match o with
  | Continue _ _ | Returned _ => true
  | OutOfFuel _ | Panicked _ => false
  end.

Section Handshake.
Context {M T : Type} `{Tok : mqtt.Token T} `{Cl : mqtt.Client M T}
        `{DM : DeviceMethods M}.
Local Open Scope task_scope.

(** The world with more events at the end of its trace. *)
Definition log (w : World M) (events : list Event) : World M :=
  mkWorld (dev w) (brokerCalls w) (trace w ++ events).

Definition emit (e : Event) : Task M unit :=
  fun w => Continue tt (log w [e]).

Definition go_return {A} : Task M A := fun w => Returned w.

Definition get_dev : Task M (Device M) := fun w => Continue (dev w) w.

Definition put_m (c : M) : Task M unit :=
  fun w => Continue tt (mkWorld (set_m (dev w) (Some c)) (brokerCalls w) (trace w)).

(** [d.m] taken as a client to call a method on: nil panics. *)
Definition deref_m : Task M M :=
  fun w => match m (dev w) with
           | Some c => Continue c w
           | None => Panicked w
           end.

(** [IsConnected], the public query. *)
Definition IsConnected (d : Device M) : bool :=
  match m d with
  | Some c => mqtt.IsConnected c
  | None => false
  end.

(** [d.IsConnected()] called from the task. *)
Definition call_IsConnected : Task M bool :=
  let* d := get_dev in
  match m d with
  | Some c => emit M_IsConnected ;;; ret (mqtt.IsConnected c)
  | None => ret false
  end.

Definition call_getBrokerURL : Task M (string * option error) :=
  fun w =>
    Continue (getBrokerURL (brokerCalls w))
             (mkWorld (dev w) (S (brokerCalls w)) (trace w ++ [Call_getBrokerURL])).

Definition call_ensureCertificate : Task M (option error) :=
  emit Call_ensureCertificate ;;; ret ensureCertificate.

Definition call_initializeMQTTClient (brokerURL : string) : Task M (option error) :=
  emit (Call_initializeMQTTClient brokerURL) ;;;
  match initializeMQTTClient brokerURL with
  | inl c => put_m c ;;; ret None
  | inr err => ret (Some err)
  end.

Definition call_setupSubscriptions : Task M (option error) :=
  let* c := deref_m in
  let* d := get_dev in
  emit Call_setupSubscriptions ;;;
  let '(c', err) := setupSubscriptions (interfaces d) c in
  put_m c' ;;; ret err.

Definition call_sendIntrospection : Task M (option error) :=
  let* c := deref_m in
  let* d := get_dev in
  emit Call_sendIntrospection ;;;
  let '(c', err) := sendIntrospection (interfaces d) c in
  put_m c' ;;; ret err.

Definition m_Connect : Task M T :=
  let* c := deref_m in
  emit M_Connect ;;;
  let '(c', tok) := mqtt.Connect c in
  put_m c' ;;; ret tok.

Definition m_Disconnect (quiesce : Z) : Task M unit :=
  let* c := deref_m in
  emit (M_Disconnect quiesce) ;;;
  put_m (mqtt.Disconnect c quiesce).

Definition token_Wait (tok : T) : Task M bool :=
  emit Token_Wait ;;; ret (mqtt.Wait tok).

Definition token_WaitTimeout (tok : T) (d : Z) : Task M bool :=
  emit (Token_WaitTimeout d) ;;; ret (mqtt.WaitTimeout tok d).

Definition token_Error (tok : T) : Task M (option error) :=
  emit Token_Error ;;; ret (mqtt.Error tok).

(** The [for] loop around broker resolution, entered with the outcome of
    the first call; [fuel] bounds the number of iterations. [break]
    continues with the broker URL. *)
Fixpoint brokerURL_loop (fuel : nat) (result : chan)
    (brokerURL : string) (err : option error) : Task M string :=
  match fuel with
  | O => fun w => OutOfFuel w
  | S fuel' =>
      let* d := get_dev in
      let* '(brokerURL, err) :=
        (if non_nil err && AutoReconnect d then
           emit (Println ["Cannot get brokerURL. Retrying in 30 seconds."]) ;;;
           emit (Sleep (30 * Second)) ;;;
           call_getBrokerURL
         else ret (brokerURL, err)) in
      if non_nil err && negb (AutoReconnect d) then
        emit (Println ["Cannot get brokerURL."]) ;;;
        emit (Send result err) ;;;
        go_return
      else if is_nil err then
        emit (Println ["Got brokerURL: "; brokerURL]) ;;;
        ret brokerURL
      else brokerURL_loop fuel' result brokerURL err
  end.

(** The goroutine of [Connect]. *)
Definition Connect (fuel : nat) (result : option chan) : Task M unit :=
  match result with
  | None =>
      emit (Println ["The channel cannot be nil."]) ;;;
      go_return
  | Some result =>
      let* connected := call_IsConnected in
      if connected then emit (Send result None) ;;; go_return else
      let* d := get_dev in
      if Nat.eqb (size (interfaces d)) 0 then
        emit (Send result
                (Some "Add at least an interface before attempting to connect")) ;;;
        go_return
      else
      let* '(brokerURL, err) := call_getBrokerURL in
      let* brokerURL := brokerURL_loop fuel result brokerURL err in
      let* err := call_ensureCertificate in
      if non_nil err then emit (Send result err) ;;; go_return else
      let* err := call_initializeMQTTClient brokerURL in
      if non_nil err then emit (Send result err) ;;; go_return else
      let* connectToken := m_Connect in
      let* d := get_dev in
      (if AutoReconnect d then
         let* waited := token_Wait connectToken in
         if waited then
           let* err := token_Error connectToken in
           if non_nil err then
             let* err := token_Error connectToken in
             emit (Send result err)
           else ret tt
         else ret tt
       else
         let* ok := token_WaitTimeout connectToken (30 * Second) in
         if negb ok then
           emit (Send result (Some "Timed out while connecting to the Broker.")) ;;;
           go_return
         else ret tt) ;;;
      let* err := call_setupSubscriptions in
      if non_nil err then
        m_Disconnect 0 ;;; emit (Send result err) ;;; go_return
      else
      let* err := call_sendIntrospection in
      if non_nil err then
        m_Disconnect 0 ;;; emit (Send result err) ;;; go_return
      else
      emit (Send result None)
  end.

(** The steps of [Connect] from certificate assurance on, as they stand
    in [Connect]; the proofs treat what comes after the loop under this
    name. *)
Definition after_resolution (result : chan) (brokerURL : string)
    : Task M unit :=
  let* err := call_ensureCertificate in
  if non_nil err then emit (Send result err) ;;; go_return else
  let* err := call_initializeMQTTClient brokerURL in
  if non_nil err then emit (Send result err) ;;; go_return else
  let* connectToken := m_Connect in
  let* d := get_dev in
  (if AutoReconnect d then
     let* waited := token_Wait connectToken in
     if waited then
       let* err := token_Error connectToken in
       if non_nil err then
         let* err := token_Error connectToken in
         emit (Send result err)
       else ret tt
     else ret tt
   else
     let* ok := token_WaitTimeout connectToken (30 * Second) in
     if negb ok then
       emit (Send result (Some "Timed out while connecting to the Broker.")) ;;;
       go_return
     else ret tt) ;;;
  let* err := call_setupSubscriptions in
  if non_nil err then
    m_Disconnect 0 ;;; emit (Send result err) ;;; go_return
  else
  let* err := call_sendIntrospection in
  if non_nil err then
    m_Disconnect 0 ;;; emit (Send result err) ;;; go_return
  else
  emit (Send result None).

(** The transport is connected as far as [Connect] can tell from the
    token: under auto-reconnect the wait has returned and the token has
    no error; otherwise the wait has not timed out. *)
Definition transport_connected (auto : bool) (tok : T) : Prop :=
  if auto then mqtt.Wait tok = true /\ mqtt.Error tok = None
  else mqtt.WaitTimeout tok (30 * Second) = true.

(** The same tokens with another [Error] method. *)
Definition with_Error (Error' : T -> option error) : mqtt.Token T :=
  {| mqtt.Wait := mqtt.Wait;
     mqtt.WaitTimeout := mqtt.WaitTimeout;
     mqtt.Error := Error' |}.

(** [Disconnect]: the channel argument is not used. *)
Definition Disconnect (result : option chan) : Task M unit :=
  m_Disconnect 2000.

End Handshake.

(** ** Construction *)

Section Construction.
Context {M : Type} `{IDs : misc.DeviceIDRule} `{NC : client.Constructor}
        `{FS : ioutil.FileSystem}.

(** [newDevice]: the events of the call and the returned pair. *)
Definition newDevice
    (deviceID realm credentialsSecret pairingBaseURL persistencyDir : string)
    : list Event * (option (Device M) * option error) :=
  if negb (misc.IsValidAstarteDeviceID deviceID) then
    ([], (None, Some (deviceID ++ " is not a valid Device ID")))
  else
    let d := mkDevice deviceID realm persistencyDir None ∅ None false in
    let urls := [(misc.Pairing, pairingBaseURL)] in
    match client.NewClientWithIndividualURLs urls with
    | inr err => ([Client_NewClientWithIndividualURLs urls], (None, Some err))
    | inl c =>
        ([Client_NewClientWithIndividualURLs urls],
         (Some (set_astarteAPIClient d
                  (Some (client.SetToken c credentialsSecret))),
          None))
    end.

(** [NewDevice] *)
Definition NewDevice (deviceID realm credentialsSecret pairingBaseURL : string)
    : list Event * (option (Device M) * option error) :=
  let '(persistencyDir, err) := ioutil.TempDir "" deviceID in
  let call := Ioutil_TempDir "" deviceID persistencyDir err in
  if non_nil err then ([call], (None, err))
  else
    let '(events, r) :=
      newDevice deviceID realm credentialsSecret pairingBaseURL persistencyDir in
    (call :: events, r).

(** [NewDeviceWithPersistency] *)
Definition NewDeviceWithPersistency
    (deviceID realm credentialsSecret pairingBaseURL persistencyDir : string)
    : list Event * (option (Device M) * option error) :=
  newDevice deviceID realm credentialsSecret pairingBaseURL persistencyDir.

End Construction.

(** ** Reading a trace *)

(** The values delivered on a channel, in order. *)
Fixpoint sends (ch : chan) (events : list Event) : list (option error) :=
  match events with
  | [] => []
  | Send ch' v :: rest =>
      if Nat.eqb ch ch' then v :: sends ch rest else sends ch rest
  | _ :: rest => sends ch rest
  end.

(** A send statement completes only when its value is taken from the
    channel, by a receive of the caller or by a free slot of the buffer.
    [sends] lists the values of the send statements of a run in which
    every send completes. With a caller and a buffer that take [r] values
    between them, the first [r] of them are delivered and the task goes
    no further than the next send, where it stays blocked. *)
Definition delivered (r : nat) (ch : chan) (events : list Event)
    : list (option error) :=
  take r (sends ch events).

Definition blocked (r : nat) (ch : chan) (events : list Event) : bool :=
  Nat.ltb r (length (sends ch events)).

(** Calls that reach the pairing service. *)
Definition is_pairing_call (e : Event) : bool :=
  match e with
  | Call_getBrokerURL | Call_ensureCertificate => true
  | _ => false
  end.

(** Calls that reach the transport: building the client, its methods, the
    methods of its tokens, and the two steps that subscribe and publish
    through it. *)
Definition is_transport_call (e : Event) : bool :=
  match e with
  | Call_initializeMQTTClient _ | Call_setupSubscriptions
  | Call_sendIntrospection | M_IsConnected | M_Connect | M_Disconnect _
  | Token_Wait | Token_WaitTimeout _ | Token_Error => true
  | _ => false
  end.

Definition is_getBrokerURL (e : Event) : bool :=
  match e with Call_getBrokerURL => true | _ => false end.

Definition is_initializeMQTTClient (e : Event) : bool :=
  match e with Call_initializeMQTTClient _ => true | _ => false end.

Definition is_M_Connect (e : Event) : bool :=
  match e with M_Connect => true | _ => false end.

Definition is_setupSubscriptions (e : Event) : bool :=
  match e with Call_setupSubscriptions => true | _ => false end.

Definition is_sendIntrospection (e : Event) : bool :=
  match e with Call_sendIntrospection => true | _ => false end.

Definition is_Token_Error (e : Event) : bool :=
  match e with Token_Error => true | _ => false end.

(** How many events of a kind a trace holds. *)
Definition count (P : Event -> bool) (events : list Event) : nat :=
  length (filter (fun e => P e = true) events).

(** The time slept, in nanoseconds. *)
Fixpoint slept (events : list Event) : Z :=
  match events with
  | [] => 0
  | Sleep d :: rest => d + slept rest
  | _ :: rest => slept rest
  end.

(** The directories a trace has created. *)
Fixpoint dirs_created (events : list Event) : list string :=
  match events with
  | [] => []
  | Ioutil_TempDir _ _ name None :: rest => name :: dirs_created rest
  | _ :: rest => dirs_created rest
  end.

(** The calls of the API-client constructor in a trace. *)
Definition clients_requested (events : list Event) : nat :=
  count (fun e => match e with
                  | Client_NewClientWithIndividualURLs _ => true
                  | _ => false
                  end) events.

(** One retry of broker resolution, and [k] of them in a row. *)
Definition retry : list Event :=
  [ Println ["Cannot get brokerURL. Retrying in 30 seconds."];
    Sleep (30 * Second);
    Call_getBrokerURL ].

Definition retries (k : nat) : list Event := concat (replicate k retry).

(** The steps from certificate assurance up to the wait on the token,
    when each succeeds. *)
Definition connect_steps (auto : bool) (u : string) : list Event :=
  [Call_ensureCertificate; Call_initializeMQTTClient u; M_Connect]
  ++ (if auto then [Token_Wait; Token_Error]
      else [Token_WaitTimeout (30 * Second)]).

(** A task started on device [d] after [n] calls of [getBrokerURL], with
    an empty trace. *)
Definition start {M} (d : Device M) (n : nat) : World M := mkWorld d n [].

(** The connectivity query of the first step: [d.m.IsConnected()] is
    called when there is a client. *)
Definition poll {M} (d : Device M) : list Event :=
  match m d with Some _ => [M_IsConnected] | None => [] end.

(** ** Concrete collaborators

    Instances of the interfaces above on which the definitions can be
    run: the legal values of the enumerated fields, and a pairing service
    and a transport that follow a script. *)

Module Scripted.
Import interfaces.

Definition one_of (legal : list string) (what : error) (s : string)
    : option error :=
  if bool_decide (s ∈ legal) then None else Some what.

(** The legal values of the Astarte interface schema. *)
Definition astarte_validators : Validators := {|
  AstarteInterfaceAggregation_IsValid :=
    one_of ["individual"; "object"] "invalid aggregation";
  AstarteInterfaceType_IsValid :=
    one_of ["properties"; "datastream"] "invalid type";
  AstarteInterfaceOwnership_IsValid :=
    one_of ["device"; "server"] "invalid ownership";
  AstarteMappingReliability_IsValid :=
    one_of ["unreliable"; "guaranteed"; "unique"] "invalid reliability";
  AstarteMappingRetention_IsValid :=
    one_of ["discard"; "volatile"; "stored"] "invalid retention";
  AstarteMappingDatabaseRetentionPolicy_IsValid :=
    one_of ["no_ttl"; "use_ttl"] "invalid database retention policy"
|}.

(** A token that reports what its script says. *)
Record ScriptedToken := {
  completes : bool;          (* what Wait returns *)
  in_time : bool;            (* what WaitTimeout returns *)
  failure : option error     (* what Error returns *)
}.

Definition scripted_token : mqtt.Token ScriptedToken := {|
  mqtt.Wait := completes;
  mqtt.WaitTimeout := fun t _ => in_time t;
  mqtt.Error := failure
|}.

(** A client that is connected after a handshake without error and
    until it is disconnected. *)
Record ScriptedClient := {
  connected : bool;
  handshake : ScriptedToken
}.

Definition scripted_client : mqtt.Client ScriptedClient ScriptedToken := {|
  mqtt.IsConnected := connected;
  mqtt.Connect := fun c =>
    ({| connected := in_time (handshake c) && is_nil (failure (handshake c));
        handshake := handshake c |},
     handshake c);
  mqtt.Disconnect := fun c _ =>
    {| connected := false; handshake := handshake c |}
|}.

(** The methods of the device from the outcomes they are to have:
    broker resolution fails [failures] times and then yields [url]. *)
Definition scripted_methods (failures : nat) (url : string)
    (certificate : option error) (client : ScriptedClient + error)
    (subscriptions introspection : option error)
    : DeviceMethods ScriptedClient := {|
  getBrokerURL := fun n =>
    if Nat.ltb n failures then ("", Some "pairing API unreachable")
    else (url, None);
  ensureCertificate := certificate;
  initializeMQTTClient := fun _ => client;
  setupSubscriptions := fun _ c => (c, subscriptions);
  sendIntrospection := fun _ c => (c, introspection)
|}.

(** A device ID is 22 characters of the URL-safe base64 alphabet (128
    bits). *)
Definition base64url_char (a : ascii) : bool :=
  let n := nat_of_ascii a in
  ((65 <=? n) && (n <=? 90) || (97 <=? n) && (n <=? 122)
   || (48 <=? n) && (n <=? 57) || (n =? 45) || (n =? 95))%nat.

Definition device_id_rule : misc.DeviceIDRule := {|
  misc.IsValidAstarteDeviceID := fun s =>
    Nat.eqb (String.length s) 22
    && forallb base64url_char (String.list_ascii_of_string s)
|}.

Definition api_clients : client.Constructor := {|
  client.NewClientWithIndividualURLs := fun urls =>
    inl {| client.urls := urls; client.token := "" |}
|}.

(** A file system with a writable temporary directory: as in Go,
    [TempDir] refuses a pattern that holds a path separator and makes a
    directory for any other. *)
Definition tmpfs : ioutil.FileSystem := {|
  ioutil.TempDir := fun _ pattern =>
    if existsb (Ascii.eqb "/"%char) (String.list_ascii_of_string pattern)
    then ("", Some "pattern contains path separator")
    else ("/tmp/" ++ pattern ++ "123456789", None)
|}.

(** The same file system, under the name used where the pattern is
    refused. *)
Definition strict_tmpfs : ioutil.FileSystem := tmpfs.

(** A valid interface, a second definition of the same name, and
    interfaces with one illegal field. *)
Definition sensor_mapping : AstarteMapping := {|
  Endpoint := "/temperature";
  Reliability := "guaranteed";
  Retention := "discard";
  DatabaseRetentionPolicy := "no_ttl"
|}.

Definition sensors : AstarteInterface := {|
  Name := "org.example.Sensors";
  MajorVersion := 1;
  MinorVersion := 0;
  Type_ := "datastream";
  Ownership := "device";
  Aggregation := "individual";
  Mappings := [sensor_mapping]
|}.

Definition sensors_v2 : AstarteInterface := {|
  Name := "org.example.Sensors";
  MajorVersion := 2;
  MinorVersion := 0;
  Type_ := "datastream";
  Ownership := "device";
  Aggregation := "object";
  Mappings := [sensor_mapping]
|}.

(** A time-series interface whose only illegal field is the database
    retention policy of its mapping. *)
Definition sensors_bad_policy : AstarteInterface := {|
  Name := "org.example.Sensors";
  MajorVersion := 1;
  MinorVersion := 0;
  Type_ := "datastream";
  Ownership := "device";
  Aggregation := "individual";
  Mappings := [ {| Endpoint := "/temperature";
                   Reliability := "guaranteed";
                   Retention := "discard";
                   DatabaseRetentionPolicy := "forever" |} ]
|}.

(** An interface with an illegal ownership and an illegal retention. *)
Definition sensors_bad_ownership : AstarteInterface := {|
  Name := "org.example.Other";
  MajorVersion := 1;
  MinorVersion := 0;
  Type_ := "datastream";
  Ownership := "nobody";
  Aggregation := "individual";
  Mappings := [ {| Endpoint := "/temperature";
                   Reliability := "guaranteed";
                   Retention := "sometimes";
                   DatabaseRetentionPolicy := "no_ttl" |} ]
|}.

Definition fresh_device (auto : bool) : Device ScriptedClient :=
  mkDevice "2TBn-jNESuuHamE2Zo1anA" "test" "/var/lib/astarte" None ∅ None auto.

(** A device with one interface registered. *)
Definition ready_device (auto : bool) : Device ScriptedClient :=
  set_interfaces (fresh_device auto) {[ "org.example.Sensors" := sensors ]}.

Definition ok_token : ScriptedToken :=
  {| completes := true; in_time := true; failure := None |}.

Definition refused_token : ScriptedToken :=
  {| completes := true; in_time := true; failure := Some "connection refused" |}.

Definition idle_client (t : ScriptedToken) : ScriptedClient :=
  {| connected := false; handshake := t |}.

(** A device that is connected and whose registry has been emptied. *)
Definition connected_empty_device : Device ScriptedClient :=
  set_m (fresh_device false)
        (Some {| connected := true; handshake := ok_token |}).

Definition broker : string := "ssl://broker.example.com:8883".

(** [Connect] on channel 7 with scripted collaborators. *)
Definition run (d : Device ScriptedClient) (failures : nat)
    (certificate : option error) (t : ScriptedToken)
    (subscriptions introspection : option error) (fuel : nat)
    : Outcome ScriptedClient unit :=
  Connect (Tok := scripted_token) (Cl := scripted_client)
          (DM := scripted_methods failures broker certificate
                   (inl (idle_client t)) subscriptions introspection)
          fuel (Some 7%nat) (start d 0).

(** A token whose wait times out. *)
Definition late_token : ScriptedToken :=
  {| completes := true; in_time := false; failure := None |}.

(** An interface without mappings. *)
Definition bare : AstarteInterface := {|
  Name := "org.example.Bare";
  MajorVersion := 0;
  MinorVersion := 1;
  Type_ := "properties";
  Ownership := "server";
  Aggregation := "individual";
  Mappings := []
|}.

End Scripted.

(** * Proof automation

    Running the straight-line part of the task: unfold the steps, then
    decide every answer of a collaborator, innermost first. *)

Arguments after_resolution : simpl never.

Ltac unfold_steps :=
  unfold after_resolution, call_ensureCertificate, call_initializeMQTTClient,
    call_setupSubscriptions, call_sendIntrospection, m_Connect, m_Disconnect,
    token_Wait, token_WaitTimeout, token_Error, deref_m, get_dev, put_m,
    emit, go_return, ret, bind, log, non_nil, is_nil, with_Error.

Ltac decide_answers :=
  repeat match goal with
         | |- context [match ?x with _ => _ end] =>
             lazymatch x with
             | context [match _ with _ => _ end] => fail
             | _ => destruct x eqn:?; cbn in *
             end
         end.

Ltac flatten_trace := cbn; rewrite <- ?app_assoc; cbn.

(** * Properties of the interface registry *)

Section RegistryProperties.
Context {M : Type} `{V : interfaces.Validators}.
Import interfaces.

Lemma validate_mappings_first_error (mappings : list AstarteMapping) :
  validate_mappings mappings = first_error (concat (map mapping_checks mappings)).
Proof.
  induction mappings as [|mapping rest IH]; [reflexivity|].
  cbn [validate_mappings map concat mapping_checks app first_error].
  destruct (AstarteMappingReliability_IsValid _); [reflexivity|].
  destruct (AstarteMappingRetention_IsValid _); [reflexivity|].
  destruct (AstarteMappingDatabaseRetentionPolicy_IsValid _); [reflexivity|].
  exact IH.
Qed.

Lemma validate_mappings_valid (mappings : list AstarteMapping) :
  Forall mapping_valid mappings -> validate_mappings mappings = None.
Proof.
  induction 1 as [|mapping rest (Hrel & Hret & Hdrp) _ IH]; [reflexivity|].
  cbn [validate_mappings]. rewrite Hrel, Hret, Hdrp. exact IH.
Qed.

Lemma validate_mappings_invalid (mappings : list AstarteMapping) :
  Exists (fun mapping => ~ mapping_valid mapping) mappings ->
  exists err, validate_mappings mappings = Some err.
Proof.
  induction 1 as [mapping rest Hbad | mapping rest _ IH];
    cbn [validate_mappings];
    destruct (AstarteMappingReliability_IsValid (Reliability mapping)) eqn:Hrel;
    eauto;
    destruct (AstarteMappingRetention_IsValid (Retention mapping)) eqn:Hret;
    eauto;
    destruct (AstarteMappingDatabaseRetentionPolicy_IsValid
                (DatabaseRetentionPolicy mapping)) eqn:Hdrp;
    eauto.
  exfalso. apply Hbad. repeat split; assumption.
Qed.

Lemma AddInterface_valid (d : Device M) (i : AstarteInterface) :
  interface_valid i ->
  AddInterface d i = (set_interfaces d (<[Name i := i]> (interfaces d)), None).
Proof.
  intros (Hagg & Hty & Hown & Hmaps). unfold AddInterface.
  rewrite Hagg, Hty, Hown, (validate_mappings_valid _ Hmaps). reflexivity.
Qed.

(** C4. [AddInterface] is atomic: when at least one enumerated field of
    the interface is invalid, the call returns an error and the device,
    its registry included, is what it was before the call. *)
Theorem AddInterface_atomic (d : Device M) (i : AstarteInterface) :
  has_invalid_field i ->
  exists err, AddInterface d i = (d, Some err).
Proof.
  intros Hbad. unfold AddInterface.
  destruct (AstarteInterfaceAggregation_IsValid (Aggregation i)) eqn:Hagg; eauto.
  destruct (AstarteInterfaceType_IsValid (Type_ i)) eqn:Hty; eauto.
  destruct (AstarteInterfaceOwnership_IsValid (Ownership i)) eqn:Hown; eauto.
  destruct Hbad as [Hbad | [Hbad | [Hbad | Hbad]]]; try congruence.
  destruct (validate_mappings_invalid _ Hbad) as [err Herr].
  rewrite Herr. eauto.
Qed.

(** C5, amended. [AddInterface] checks aggregation, type, ownership, then
    reliability, retention and database retention policy of each mapping
    in turn, whatever the type of the interface; it returns the first
    error in that order and leaves the device alone, and admits the
    interface when there is none. *)
Theorem AddInterface_validation_order (d : Device M) (i : AstarteInterface) :
  AddInterface d i =
  match first_error (validation_order i) with
  | Some err => (d, Some err)
  | None => (set_interfaces d (<[Name i := i]> (interfaces d)), None)
  end.
Proof.
  unfold AddInterface, validation_order.
  cbn [app first_error].
  destruct (AstarteInterfaceAggregation_IsValid _); [reflexivity|].
  destruct (AstarteInterfaceType_IsValid _); [reflexivity|].
  destruct (AstarteInterfaceOwnership_IsValid _); [reflexivity|].
  rewrite validate_mappings_first_error. reflexivity.
Qed.

(** C8. Adding a valid interface and then a valid interface of the same
    name leaves the second one under that name; the registry is the one
    that adding the second alone gives. *)
Theorem AddInterface_last_write_wins (d : Device M) (x y : AstarteInterface) :
  interface_valid x -> interface_valid y -> Name x = Name y ->
  exists d1 d2,
    AddInterface d x = (d1, None) /\
    AddInterface d1 y = (d2, None) /\
    interfaces d2 !! Name x = Some y /\
    interfaces d2 = <[Name y := y]> (interfaces d).
Proof.
  intros Hx Hy Hname.
  exists (set_interfaces d (<[Name x := x]> (interfaces d))).
  eexists. split; [apply AddInterface_valid; assumption|].
  split; [apply AddInterface_valid; assumption|].
  cbn [set_interfaces interfaces]. rewrite Hname. split.
  - apply lookup_insert_eq.
  - apply insert_insert_eq.
Qed.

(** Removing an interface that is not registered changes nothing. *)
Lemma RemoveInterface_absent (d : Device M) (i : AstarteInterface) :
  interfaces d !! Name i = None -> RemoveInterface d i = d.
Proof.
  intros Habs. unfold RemoveInterface. rewrite delete_id by assumption.
  destruct d; reflexivity.
Qed.

End RegistryProperties.

Section RegistryExamples.
Import interfaces Scripted.

Lemma AddInterface_atomic_witness :
  exists err,
    AddInterface (V := astarte_validators) (fresh_device false)
                 sensors_bad_ownership
    = (fresh_device false, Some err).
Proof.
  apply (AddInterface_atomic (V := astarte_validators)).
  right; right; left. vm_compute. discriminate.
Defined.

Lemma AddInterface_last_write_wins_witness :
  exists d1 d2,
    AddInterface (V := astarte_validators) (fresh_device false) sensors
    = (d1, None) /\
    AddInterface (V := astarte_validators) d1 sensors_v2 = (d2, None) /\
    interfaces d2 !! Name sensors = Some sensors_v2 /\
    interfaces d2 = <[Name sensors_v2 := sensors_v2]> (interfaces (fresh_device false)).
Proof.
  apply (AddInterface_last_write_wins (V := astarte_validators));
    [ | | reflexivity];
    (repeat split; try reflexivity);
    repeat constructor.
Defined.

(** C5, as stated, fails: a time-series interface whose only illegal
    field is the database retention policy of a mapping is rejected. *)
Lemma AddInterface_rejects_policy_of_datastream :
  Type_ sensors_bad_policy = "datastream" /\
  first_error
    (firstn 5 (validation_order (V := astarte_validators) sensors_bad_policy))
  = None /\
  AddInterface (V := astarte_validators) (fresh_device false) sensors_bad_policy
  = (fresh_device false, Some "invalid database retention policy").
Proof. repeat split; vm_compute; reflexivity. Qed.

End RegistryExamples.

(** * Properties of construction *)

Section ConstructionProperties.
Context {M : Type} `{IDs : misc.DeviceIDRule} `{NC : client.Constructor}
        `{FS : ioutil.FileSystem}.

(** For a device ID that the rule rejects, [newDevice] and
    [NewDeviceWithPersistency] fail with the invalid-device-ID error
    before anything else happens. [NewDevice] has called [TempDir] by
    then: when that call fails its error is what [NewDevice] returns,
    and when it succeeds the directory has been made and the
    invalid-device-ID error is returned without it. No API client is
    asked for in either case. *)
Lemma NewDevice_validates_after_TempDir
    (id realm_ secret url dir : string) :
  misc.IsValidAstarteDeviceID id = false ->
  let bad := Some (id ++ " is not a valid Device ID") in
  newDevice (M := M) id realm_ secret url dir = ([], (None, bad)) /\
  NewDeviceWithPersistency (M := M) id realm_ secret url dir = ([], (None, bad)) /\
  NewDevice (M := M) id realm_ secret url
  = match ioutil.TempDir "" id with
    | (name, None) => ([Ioutil_TempDir "" id name None], (None, bad))
    | (name, Some err) =>
        ([Ioutil_TempDir "" id name (Some err)], (None, Some err))
    end /\
  clients_requested (fst (NewDevice (M := M) id realm_ secret url)) = 0%nat /\
  dirs_created (fst (NewDevice (M := M) id realm_ secret url))
  = match ioutil.TempDir "" id with
    | (name, None) => [name]
    | (_, Some _) => []
    end.
Proof.
  intros Hbad bad.
  assert (Hnew : forall dir',
             newDevice (M := M) id realm_ secret url dir' = ([], (None, bad))).
  { intros dir'. unfold newDevice. rewrite Hbad. reflexivity. }
  split; [apply Hnew|]. split; [apply Hnew|].
  unfold NewDevice.
  destruct (ioutil.TempDir "" id) as [name [err|]]; cbn [non_nil].
  - repeat split.
  - rewrite Hnew. repeat split.
Qed.

End ConstructionProperties.

Section ConstructionExamples.
Import Scripted.

(** C2. The device ID "abc" is rejected by the rule and is a pattern that
    [TempDir] accepts: [NewDevice] makes the temporary directory, then
    fails with the invalid-device-ID error and returns no device, so the
    directory is left behind with nothing that names it.
    [NewDeviceWithPersistency], which validates first, does nothing for
    the same ID. With an ID that holds a path separator the same order
    of steps makes [NewDevice] return the error of [TempDir] and not the
    invalid-device-ID error. *)
Theorem NewDevice_orphans_directory_on_invalid_id :
  misc.IsValidAstarteDeviceID (DeviceIDRule := device_id_rule) "abc" = false /\
  NewDevice (M := ScriptedClient) (IDs := device_id_rule) (NC := api_clients)
            (FS := tmpfs) "abc" "test" "secret" "http://pairing"
  = ([Ioutil_TempDir "" "abc" "/tmp/abc123456789" None],
     (None, Some "abc is not a valid Device ID")) /\
  dirs_created
    (fst (NewDevice (M := ScriptedClient) (IDs := device_id_rule)
                    (NC := api_clients) (FS := tmpfs)
                    "abc" "test" "secret" "http://pairing"))
  = ["/tmp/abc123456789"] /\
  NewDeviceWithPersistency
    (M := ScriptedClient) (IDs := device_id_rule) (NC := api_clients)
    "abc" "test" "secret" "http://pairing" "/var/lib/astarte"
  = ([], (None, Some "abc is not a valid Device ID")) /\
  misc.IsValidAstarteDeviceID (DeviceIDRule := device_id_rule) "not/valid" = false /\
  NewDevice (M := ScriptedClient) (IDs := device_id_rule) (NC := api_clients)
            (FS := tmpfs) "not/valid" "test" "secret" "http://pairing"
  = ([Ioutil_TempDir "" "not/valid" "" (Some "pattern contains path separator")],
     (None, Some "pattern contains path separator")).
Proof. repeat split. Qed.

End ConstructionExamples.

(** * Properties of the handshake *)

Section HandshakeProperties.
Context {M T : Type} `{Tok : mqtt.Token T} `{Cl : mqtt.Client M T}
        `{DM : DeviceMethods M}.

Lemma log_log (w : World M) (l1 l2 : list Event) :
  log (log w l1) l2 = log w (l1 ++ l2).
Proof. unfold log. cbn. rewrite <- app_assoc. reflexivity. Qed.

Lemma Connect_unfold (fuel : nat) (ch : chan) :
  Connect fuel (Some ch) =
  bind call_IsConnected (fun connected =>
    if connected then bind (emit (Send ch None)) (fun _ => go_return) else
    bind get_dev (fun d =>
      if Nat.eqb (size (interfaces d)) 0 then
        bind (emit (Send ch
                 (Some "Add at least an interface before attempting to connect")))
             (fun _ => go_return)
      else
        bind call_getBrokerURL (fun '(brokerURL, err) =>
          bind (brokerURL_loop fuel ch brokerURL err) (after_resolution ch)))).
Proof. reflexivity. Qed.

(** The first two steps let a device through that is not connected and
    has an interface; the first call of [getBrokerURL] follows. *)
Lemma Connect_enters_resolution (fuel : nat) (ch : chan) (d : Device M) (n : nat) :
  IsConnected d = false ->
  size (interfaces d) <> 0%nat ->
  Connect fuel (Some ch) (start d n) =
  bind (brokerURL_loop fuel ch (fst (getBrokerURL n)) (snd (getBrokerURL n)))
       (after_resolution ch)
       (mkWorld d (S n) (poll d ++ [Call_getBrokerURL])).
Proof.
  intros Hconn Hsize. rewrite Connect_unfold.
  apply Nat.eqb_neq in Hsize.
  unfold IsConnected in Hconn. unfold poll.
  unfold bind at 1. unfold call_IsConnected, bind, get_dev, emit, ret, start, log.
  destruct (m d) as [c|] eqn:Hm;
    do 4 (cbn; rewrite ?Hm, ?Hconn, ?Hsize);
    destruct (getBrokerURL n) as [u err]; reflexivity.
Qed.

(** One iteration of the loop, in each of its three cases. *)
Lemma loop_resolved (fuel : nat) (ch : chan) (u : string) (w : World M) :
  brokerURL_loop (S fuel) ch u None w
  = Continue u (log w [Println ["Got brokerURL: "; u]]).
Proof. reflexivity. Qed.

Lemma loop_gives_up (fuel : nat) (ch : chan) (u : string) (e : error)
    (w : World M) :
  AutoReconnect (dev w) = false ->
  brokerURL_loop (S fuel) ch u (Some e) w
  = Returned (log w [Println ["Cannot get brokerURL."]; Send ch (Some e)]).
Proof.
  intros Hauto. cbn. unfold bind, get_dev. rewrite Hauto. cbn.
  rewrite log_log. reflexivity.
Qed.

Lemma loop_retries (fuel : nat) (ch : chan) (u : string) (e : error)
    (w : World M) :
  AutoReconnect (dev w) = true ->
  brokerURL_loop (S fuel) ch u (Some e) w
  = let w' := mkWorld (dev w) (S (brokerCalls w)) (trace w ++ retry) in
    match getBrokerURL (brokerCalls w) with
    | (u', None) => Continue u' (log w' [Println ["Got brokerURL: "; u']])
    | (u', Some e') => brokerURL_loop fuel ch u' (Some e') w'
    end.
Proof.
  intros Hauto. cbn. unfold bind, get_dev. rewrite Hauto. cbn.
  unfold log. cbn. rewrite <- !app_assoc. cbn.
  destruct (getBrokerURL (brokerCalls w)) as [u' [e'|]]; cbn.
  - reflexivity.
  - reflexivity.
Qed.

Lemma retries_S (k : nat) : retries (S k) = (retry ++ retries k)%list.
Proof. reflexivity. Qed.

(** Entered with an error under auto-reconnect, the loop retries until
    [getBrokerURL] succeeds: after [j] more failures the loop has
    retried [j + 1] times. *)
Lemma loop_retries_until_success (j : nat) :
  forall (fuel : nat) (ch : chan) (u : string) (e : error) (w : World M)
         (url : string),
    AutoReconnect (dev w) = true ->
    (forall i, (i < j)%nat -> snd (getBrokerURL (brokerCalls w + i)) <> None) ->
    getBrokerURL (brokerCalls w + j) = (url, None) ->
    (j < fuel)%nat ->
    brokerURL_loop fuel ch u (Some e) w
    = Continue url
        (mkWorld (dev w) (brokerCalls w + j + 1)
                 (trace w ++ retries (S j) ++ [Println ["Got brokerURL: "; url]])).
Proof.
  induction j as [|j IH]; intros fuel ch u e w url Hauto Hfail Hok Hfuel.
  - destruct fuel as [|fuel]; [lia|].
    rewrite loop_retries by assumption. cbn zeta.
    rewrite Nat.add_0_r in Hok. rewrite Hok.
    unfold log. cbn. rewrite <- app_assoc.
    do 2 f_equal; lia.
  - destruct fuel as [|fuel]; [lia|].
    rewrite loop_retries by assumption. cbn zeta.
    pose proof (Hfail 0%nat ltac:(lia)) as H0. rewrite Nat.add_0_r in H0.
    destruct (getBrokerURL (brokerCalls w)) as [u' [e'|]]; [|contradiction].
    rewrite (IH fuel ch u' e' _ url); cbn [dev brokerCalls trace].
    + rewrite (retries_S (S j)), <- !app_assoc.
      do 2 f_equal; lia.
    + assumption.
    + intros i Hi. replace (S (brokerCalls w) + i)%nat
        with (brokerCalls w + S i)%nat by lia. apply Hfail. lia.
    + replace (S (brokerCalls w) + j)%nat
        with (brokerCalls w + S j)%nat by lia. assumption.
    + lia.
Qed.

(** While [getBrokerURL] keeps failing the loop never ends: it uses all
    the iterations it is given, one retry each, and sends nothing. *)
Lemma loop_retries_forever (fuel : nat) :
  forall (ch : chan) (u : string) (e : error) (w : World M),
    AutoReconnect (dev w) = true ->
    (forall i, snd (getBrokerURL (brokerCalls w + i)) <> None) ->
    brokerURL_loop fuel ch u (Some e) w
    = OutOfFuel (mkWorld (dev w) (brokerCalls w + fuel)
                         (trace w ++ retries fuel)).
Proof.
  induction fuel as [|fuel IH]; intros ch u e w Hauto Hfail.
  - cbn. rewrite Nat.add_0_r, app_nil_r. destruct w; reflexivity.
  - rewrite loop_retries by assumption. cbn zeta.
    pose proof (Hfail 0%nat) as H0. rewrite Nat.add_0_r in H0.
    destruct (getBrokerURL (brokerCalls w)) as [u' [e'|]]; [|contradiction].
    rewrite IH; cbn [dev brokerCalls trace].
    + rewrite retries_S, <- app_assoc. do 2 f_equal; lia.
    + assumption.
    + intros i. replace (S (brokerCalls w) + i)%nat
        with (brokerCalls w + S i)%nat by lia. apply Hfail.
Qed.

(** A failure of certificate assurance ends the task at once. *)
Lemma certificate_failure_is_terminal (ch : chan) (u : string) (e : error)
    (w : World M) :
  ensureCertificate = Some e ->
  after_resolution ch u w
  = Returned (log w [Call_ensureCertificate; Send ch (Some e)]).
Proof.
  intros Hcert. unfold_steps. cbn. rewrite Hcert. cbn.
  rewrite <- app_assoc. reflexivity.
Qed.

(** What the steps after broker resolution add to the trace: the call of
    [ensureCertificate] first, then no further call of the pairing
    service, no sleep, and each later step at most once. *)
Lemma after_resolution_steps_once (ch : chan) (u : string) (w : World M) :
  exists rest,
    trace (world_of (after_resolution ch u w))
    = (trace w ++ Call_ensureCertificate :: rest)%list /\
    brokerCalls (world_of (after_resolution ch u w)) = brokerCalls w /\
    count is_pairing_call rest = 0%nat /\
    slept rest = 0 /\
    (count is_initializeMQTTClient rest <= 1)%nat /\
    (count is_M_Connect rest <= 1)%nat /\
    (count is_setupSubscriptions rest <= 1)%nat /\
    (count is_sendIntrospection rest <= 1)%nat.
Proof.
  unfold_steps. cbn. decide_answers; flatten_trace;
    (eexists; split; [reflexivity|]);
    repeat split; vm_compute; lia.
Qed.

Lemma slept_app (l1 l2 : list Event) :
  slept (l1 ++ l2) = slept l1 + slept l2.
Proof.
  induction l1 as [|e l1 IH]; [reflexivity|].
  destruct e; cbn [app slept]; rewrite ?IH; lia.
Qed.

Lemma slept_retries (k : nat) : slept (retries k) = Z.of_nat k * (30 * Second).
Proof.
  induction k as [|k IH]; [reflexivity|].
  rewrite retries_S, slept_app, IH. unfold retry. cbn [slept]. lia.
Qed.

Lemma sends_app (ch : chan) (l1 l2 : list Event) :
  sends ch (l1 ++ l2) = (sends ch l1 ++ sends ch l2)%list.
Proof.
  induction l1 as [|e l1 IH]; [reflexivity|].
  destruct e; cbn [app sends]; rewrite ?IH; try reflexivity.
  destruct (Nat.eqb ch ch0); reflexivity.
Qed.

Lemma sends_retries (ch : chan) (k : nat) : sends ch (retries k) = [].
Proof.
  induction k as [|k IH]; [reflexivity|].
  rewrite retries_S, sends_app, IH. reflexivity.
Qed.

Lemma sends_poll (ch : chan) (d : Device M) : sends ch (poll d) = [].
Proof. unfold poll. destruct (m d); reflexivity. Qed.

Lemma count_app (P : Event -> bool) (l1 l2 : list Event) :
  count P (l1 ++ l2) = (count P l1 + count P l2)%nat.
Proof. unfold count. rewrite filter_app, length_app. reflexivity. Qed.

Lemma count_retries (P : Event -> bool) (k : nat) :
  count P (retries k) = (k * count P retry)%nat.
Proof.
  induction k as [|k IH]; [reflexivity|].
  rewrite retries_S, count_app, IH. lia.
Qed.

(** The world in which broker resolution has succeeded at the
    [(k+1)]-th attempt. *)
Lemma Connect_resolves (d : Device M) (n k fuel : nat) (ch : chan) (url : string) :
  IsConnected d = false ->
  size (interfaces d) <> 0%nat ->
  AutoReconnect d = true \/ k = 0%nat ->
  (forall i, (i < k)%nat -> snd (getBrokerURL (n + i)) <> None) ->
  getBrokerURL (n + k) = (url, None) ->
  (k < fuel)%nat ->
  Connect fuel (Some ch) (start d n)
  = after_resolution ch url
      (mkWorld d (n + k + 1)
         (poll d ++ Call_getBrokerURL :: retries k
                 ++ [Println ["Got brokerURL: "; url]])).
Proof.
  intros Hconn Hsize Hauto Hfail Hok Hfuel.
  rewrite Connect_enters_resolution by assumption.
  destruct k as [|j].
  - rewrite Nat.add_0_r in Hok. rewrite Hok. cbn [fst snd].
    destruct fuel as [|fuel]; [lia|].
    unfold bind. rewrite loop_resolved. unfold log. cbn [dev brokerCalls trace].
    rewrite <- app_assoc. cbn [app retries replicate concat].
    rewrite Nat.add_0_r, Nat.add_1_r. reflexivity.
  - destruct Hauto as [Hauto | Hk]; [|discriminate Hk].
    pose proof (Hfail 0%nat ltac:(lia)) as H0. rewrite Nat.add_0_r in H0.
    destruct (getBrokerURL n) as [u [e|]]; [|contradiction]. cbn [fst snd].
    unfold bind.
    rewrite (loop_retries_until_success j fuel ch u e _ url);
      cbn [dev brokerCalls trace].
    + rewrite <- app_assoc. cbn [app].
      replace (S n + j + 1)%nat with (n + S j + 1)%nat by lia. reflexivity.
    + assumption.
    + intros i Hi. replace (S n + i)%nat with (n + S i)%nat by lia.
      apply Hfail. lia.
    + replace (S n + j)%nat with (n + S j)%nat by lia. assumption.
    + lia.
Qed.

(** Under auto-reconnect a pairing service that never answers keeps the
    task in the loop for ever: whatever the number of iterations granted,
    each is a retry and nothing is sent. *)
Lemma Connect_retries_forever (d : Device M) (n fuel : nat) (ch : chan) :
  IsConnected d = false ->
  size (interfaces d) <> 0%nat ->
  AutoReconnect d = true ->
  (forall i, snd (getBrokerURL (n + i)) <> None) ->
  Connect fuel (Some ch) (start d n)
  = OutOfFuel (mkWorld d (n + 1 + fuel)
                       (poll d ++ Call_getBrokerURL :: retries fuel)).
Proof.
  intros Hconn Hsize Hauto Hfail.
  rewrite Connect_enters_resolution by assumption.
  pose proof (Hfail 0%nat) as H0. rewrite Nat.add_0_r in H0.
  destruct (getBrokerURL n) as [u [e|]]; [|contradiction]. cbn [fst snd].
  unfold bind. rewrite loop_retries_forever; cbn [dev brokerCalls trace].
  - rewrite <- app_assoc. cbn [app].
    replace (S n + fuel)%nat with (n + 1 + fuel)%nat by lia. reflexivity.
  - assumption.
  - intros i. replace (S n + i)%nat with (n + S i)%nat by lia. apply Hfail.
Qed.

(** C9. With a nil channel the task prints one line and returns. The
    device and the count of pairing calls are what they were, no value
    is sent on any channel, and neither the pairing service nor the
    transport is called. *)
Theorem Connect_nil_channel (fuel : nat) (w : World M) :
  let o := Connect fuel None w in
  o = Returned (mkWorld (dev w) (brokerCalls w)
                        (trace w ++ [Println ["The channel cannot be nil."]])) /\
  dev (world_of o) = dev w /\
  (forall ch, sends ch (trace (world_of o)) = sends ch (trace w)) /\
  count is_pairing_call (trace (world_of o)) = count is_pairing_call (trace w) /\
  count is_transport_call (trace (world_of o)) = count is_transport_call (trace w).
Proof.
  intros o. subst o. cbn [Connect]. unfold bind, emit, go_return, log.
  cbn [world_of dev trace]. split; [reflexivity|]. split; [reflexivity|].
  split; [|split].
  - intros ch. rewrite sends_app. cbn [sends]. apply app_nil_r.
  - rewrite count_app.
    replace (count is_pairing_call [Println ["The channel cannot be nil."]])
      with 0%nat by reflexivity.
    lia.
  - rewrite count_app.
    replace (count is_transport_call [Println ["The channel cannot be nil."]])
      with 0%nat by reflexivity.
    lia.
Qed.

(** C6, amended. On a device that is not connected and whose registry
    is empty, the task sends the no-interfaces error and returns; the
    pairing service is not called, and the transport is not called
    except for the connectivity query of the first step, made when the
    device has a client. *)
Theorem Connect_without_interfaces (d : Device M) (n fuel : nat) (ch : chan) :
  IsConnected d = false ->
  size (interfaces d) = 0%nat ->
  let o := Connect fuel (Some ch) (start d n) in
  o = Returned
        (mkWorld d n
           (poll d ++
            [Send ch (Some "Add at least an interface before attempting to connect")]))
  /\ sends ch (trace (world_of o))
     = [Some "Add at least an interface before attempting to connect"]
  /\ count is_pairing_call (trace (world_of o)) = 0%nat
  /\ filter (fun e => is_transport_call e = true) (trace (world_of o)) = poll d.
Proof.
  intros Hconn Hsize o.
  assert (Ho : o = Returned
        (mkWorld d n
           (poll d ++
            [Send ch (Some "Add at least an interface before attempting to connect")]))).
  { subst o. rewrite Connect_unfold.
    apply Nat.eqb_eq in Hsize.
    unfold IsConnected in Hconn. unfold poll.
    unfold call_IsConnected, bind, get_dev, emit, ret, go_return, start, log.
    destruct (m d) as [c|] eqn:Hm;
      do 4 (cbn; rewrite ?Hm, ?Hconn, ?Hsize); reflexivity. }
  rewrite Ho. cbn [world_of trace]. split; [reflexivity|].
  unfold poll. destruct (m d); cbn; rewrite Nat.eqb_refl; repeat split.
Qed.

(** Without auto-reconnect a failed resolution is reported after one
    call, whatever the pairing service would answer later. *)
Lemma Connect_gives_up (d : Device M) (n fuel : nat) (ch : chan)
    (u : string) (e : error) :
  IsConnected d = false ->
  size (interfaces d) <> 0%nat ->
  AutoReconnect d = false ->
  getBrokerURL n = (u, Some e) ->
  Connect (S fuel) (Some ch) (start d n)
  = Returned
      (mkWorld d (S n)
         (poll d ++
          [Call_getBrokerURL; Println ["Cannot get brokerURL."];
           Send ch (Some e)])).
Proof.
  intros Hconn Hsize Hauto Hfirst.
  rewrite Connect_enters_resolution by assumption.
  rewrite Hfirst. cbn [fst snd].
  unfold bind. rewrite loop_gives_up by assumption.
  unfold log. cbn [dev brokerCalls trace]. rewrite <- app_assoc. reflexivity.
Qed.

(** C3. Broker resolution is the one step that is retried, on a device
    that is not connected and has an interface.
    - Without auto-reconnect, a failed first call of [getBrokerURL] is
      all there is: its error is sent and the task returns.
    - When the first [k] calls fail and the next succeeds ([k = 0]
      without auto-reconnect), the task makes [k + 1] calls with a sleep
      of 30 seconds before each retry and goes on to certificate
      assurance; from there on the pairing service is not called again,
      nothing sleeps, every later step runs at most once, and a
      certificate error is sent at once and ends the task.
    - Under auto-reconnect, while every call fails the task keeps
      retrying, whatever the number of iterations it is given. *)
Theorem broker_resolution_is_the_only_retry
    (d : Device M) (n : nat) (ch : chan) :
  IsConnected d = false ->
  size (interfaces d) <> 0%nat ->
  (forall (fuel : nat) (u : string) (e : error),
      AutoReconnect d = false ->
      getBrokerURL n = (u, Some e) ->
      Connect (S fuel) (Some ch) (start d n)
      = Returned
          (mkWorld d (S n)
             (poll d ++
              [Call_getBrokerURL; Println ["Cannot get brokerURL."];
               Send ch (Some e)]))) /\
  (forall (k fuel : nat) (url : string),
      AutoReconnect d = true \/ k = 0%nat ->
      (forall i, (i < k)%nat -> snd (getBrokerURL (n + i)) <> None) ->
      getBrokerURL (n + k) = (url, None) ->
      (k < fuel)%nat ->
      let o := Connect fuel (Some ch) (start d n) in
      exists rest,
        trace (world_of o)
        = (poll d ++ Call_getBrokerURL :: retries k
             ++ [Println ["Got brokerURL: "; url]; Call_ensureCertificate]
             ++ rest)%list /\
        brokerCalls (world_of o) = (n + k + 1)%nat /\
        count is_getBrokerURL (retries k) = k /\
        slept (retries k) = Z.of_nat k * (30 * Second) /\
        count is_pairing_call rest = 0%nat /\
        slept rest = 0 /\
        (count is_initializeMQTTClient rest <= 1)%nat /\
        (count is_M_Connect rest <= 1)%nat /\
        (count is_setupSubscriptions rest <= 1)%nat /\
        (count is_sendIntrospection rest <= 1)%nat /\
        match ensureCertificate with
        | Some e => rest = [Send ch (Some e)] /\ terminated o = true
        | None => True
        end) /\
  (forall fuel : nat,
      AutoReconnect d = true ->
      (forall i, snd (getBrokerURL (n + i)) <> None) ->
      Connect fuel (Some ch) (start d n)
      = OutOfFuel (mkWorld d (n + 1 + fuel)
                           (poll d ++ Call_getBrokerURL :: retries fuel))).
Proof.
  intros Hconn Hsize. split; [|split].
  - intros fuel u e Hauto Hfirst.
    apply (Connect_gives_up d n fuel ch u e); assumption.
  - intros k fuel url Hauto Hfail Hok Hfuel o.
    subst o. rewrite (Connect_resolves d n k fuel ch url) by assumption.
    set (w := mkWorld d (n + k + 1) _).
    destruct (after_resolution_steps_once ch url w)
      as (rest & Htrace & Hcalls & Hpair & Hslept & Hinit & Hconnect & Hsub & Hint).
    exists rest. rewrite Htrace, Hcalls. subst w. cbn [trace brokerCalls].
    split.
    { rewrite <- !app_assoc. cbn [app]. rewrite <- !app_assoc. reflexivity. }
    split; [reflexivity|].
    split. { rewrite count_retries. vm_compute (count is_getBrokerURL retry). lia. }
    split; [apply slept_retries|].
    do 6 (split; [assumption|]).
    destruct ensureCertificate as [e|] eqn:Hcert; [|exact I].
    rewrite (certificate_failure_is_terminal ch url e) in Htrace |- * by assumption.
    cbn [world_of log trace] in Htrace.
    split; [|reflexivity].
    apply app_inv_head in Htrace. congruence.
  - intros fuel Hauto Hfail. apply Connect_retries_forever; assumption.
Qed.

Lemma sends_connect_steps (ch : chan) (auto : bool) (u : string) :
  sends ch (connect_steps auto u) = [].
Proof. destruct auto; reflexivity. Qed.

(** Subscription setup fails on a connected transport. *)
Lemma after_resolution_subscriptions_fail (ch : chan) (u : string)
    (w : World M) (c0 c1 c2 : M) (tok : T) (e : error) :
  ensureCertificate = None ->
  initializeMQTTClient u = inl c0 ->
  mqtt.Connect c0 = (c1, tok) ->
  transport_connected (AutoReconnect (dev w)) tok ->
  setupSubscriptions (interfaces (dev w)) c1 = (c2, Some e) ->
  after_resolution ch u w
  = Returned
      (mkWorld (set_m (dev w) (Some (mqtt.Disconnect c2 0))) (brokerCalls w)
         (trace w ++ connect_steps (AutoReconnect (dev w)) u
            ++ [Call_setupSubscriptions; M_Disconnect 0; Send ch (Some e)])).
Proof.
  intros Hcert Hinit Hconn Htok Hsub.
  unfold transport_connected in Htok. unfold connect_steps. unfold_steps.
  do 3 (cbn; rewrite ?Hcert, ?Hinit, ?Hconn).
  destruct (AutoReconnect (dev w)).
  - destruct Htok as [Hwait Herr].
    do 3 (cbn; rewrite ?Hwait, ?Herr, ?Hsub).
    rewrite <- !app_assoc. reflexivity.
  - do 3 (cbn; rewrite ?Htok, ?Hsub).
    rewrite <- !app_assoc. reflexivity.
Qed.

(** Subscription setup succeeds; the introspection fails or succeeds. *)
Lemma after_resolution_introspection (ch : chan) (u : string)
    (w : World M) (c0 c1 c2 c3 : M) (tok : T) (r : option error) :
  ensureCertificate = None ->
  initializeMQTTClient u = inl c0 ->
  mqtt.Connect c0 = (c1, tok) ->
  transport_connected (AutoReconnect (dev w)) tok ->
  setupSubscriptions (interfaces (dev w)) c1 = (c2, None) ->
  sendIntrospection (interfaces (dev w)) c2 = (c3, r) ->
  after_resolution ch u w
  = match r with
    | Some e =>
        Returned
          (mkWorld (set_m (dev w) (Some (mqtt.Disconnect c3 0))) (brokerCalls w)
             (trace w ++ connect_steps (AutoReconnect (dev w)) u
                ++ [Call_setupSubscriptions; Call_sendIntrospection;
                    M_Disconnect 0; Send ch (Some e)]))
    | None =>
        Continue tt
          (mkWorld (set_m (dev w) (Some c3)) (brokerCalls w)
             (trace w ++ connect_steps (AutoReconnect (dev w)) u
                ++ [Call_setupSubscriptions; Call_sendIntrospection;
                    Send ch None]))
    end.
Proof.
  intros Hcert Hinit Hconn Htok Hsub Hint.
  unfold transport_connected in Htok. unfold connect_steps. unfold_steps.
  do 3 (cbn; rewrite ?Hcert, ?Hinit, ?Hconn).
  destruct (AutoReconnect (dev w)).
  - destruct Htok as [Hwait Herr].
    do 4 (cbn; rewrite ?Hwait, ?Herr, ?Hsub, ?Hint).
    destruct r; cbn; rewrite <- !app_assoc; reflexivity.
  - do 4 (cbn; rewrite ?Htok, ?Hsub, ?Hint).
    destruct r; cbn; rewrite <- !app_assoc; reflexivity.
Qed.

Lemma sends_resolution (ch : chan) (d : Device M) (k : nat) (url : string) :
  sends ch (poll d ++ Call_getBrokerURL :: retries k
              ++ [Println ["Got brokerURL: "; url]]) = [].
Proof.
  rewrite sends_app, sends_poll. cbn [sends app].
  rewrite sends_app, sends_retries. reflexivity.
Qed.

(** C7. Let the handshake reach subscription setup on a connected
    transport, and let the transport report itself disconnected once it
    has been asked to disconnect. If subscription setup fails, or it
    succeeds and the introspection fails, the task asks the transport to
    disconnect, sends the error of that step, the only value it sends,
    and returns; the device is then not connected. When both steps
    succeed the only value sent is nil. *)
Theorem failure_after_connect_disconnects
    (d : Device M) (n k fuel : nat) (ch : chan) (url : string)
    (c0 c1 : M) (tok : T) :
  (forall c q, mqtt.IsConnected (mqtt.Disconnect c q) = false) ->
  IsConnected d = false ->
  size (interfaces d) <> 0%nat ->
  AutoReconnect d = true \/ k = 0%nat ->
  (forall i, (i < k)%nat -> snd (getBrokerURL (n + i)) <> None) ->
  getBrokerURL (n + k) = (url, None) ->
  (k < fuel)%nat ->
  ensureCertificate = None ->
  initializeMQTTClient url = inl c0 ->
  mqtt.Connect c0 = (c1, tok) ->
  transport_connected (AutoReconnect d) tok ->
  let o := Connect fuel (Some ch) (start d n) in
  let failed (step : Event) (e : error) :=
    (exists pre,
        trace (world_of o)
        = (pre ++ [step; M_Disconnect 0; Send ch (Some e)])%list) /\
    sends ch (trace (world_of o)) = [Some e] /\
    terminated o = true /\
    IsConnected (dev (world_of o)) = false in
  match setupSubscriptions (interfaces d) c1 with
  | (c2, Some e) => failed Call_setupSubscriptions e
  | (c2, None) =>
      match sendIntrospection (interfaces d) c2 with
      | (c3, Some e) => failed Call_sendIntrospection e
      | (c3, None) =>
          sends ch (trace (world_of o)) = [None] /\ terminated o = true
      end
  end.
Proof.
  intros Hlaw Hconn Hsize Hauto Hfail Hok Hfuel Hcert Hinit Hmc Htok o failed.
  subst failed o.
  rewrite (Connect_resolves d n k fuel ch url) by assumption.
  set (w := mkWorld d (n + k + 1) _).
  destruct (setupSubscriptions (interfaces d) c1) as [c2 [e|]] eqn:Hsub.
  - rewrite (after_resolution_subscriptions_fail ch url w c0 c1 c2 tok e)
      by assumption.
    cbn [world_of trace dev]. subst w. cbn [trace dev].
    split; [|split; [|split]].
    + exists (poll d ++ Call_getBrokerURL :: retries k
                ++ [Println ["Got brokerURL: "; url]]
                ++ connect_steps (AutoReconnect d) url)%list.
      repeat (rewrite <- ?app_assoc; cbn [app]). reflexivity.
    + rewrite sends_app, sends_resolution, sends_app, sends_connect_steps.
      cbn. rewrite Nat.eqb_refl. reflexivity.
    + reflexivity.
    + unfold IsConnected. cbn. apply Hlaw.
  - destruct (sendIntrospection (interfaces d) c2) as [c3 r] eqn:Hint.
    rewrite (after_resolution_introspection ch url w c0 c1 c2 c3 tok r)
      by assumption.
    destruct r as [e|]; cbn [world_of trace dev]; subst w; cbn [trace dev].
    + split; [|split; [|split]].
      * exists (poll d ++ Call_getBrokerURL :: retries k
                  ++ [Println ["Got brokerURL: "; url]]
                  ++ connect_steps (AutoReconnect d) url
                  ++ [Call_setupSubscriptions])%list.
        repeat (rewrite <- ?app_assoc; cbn [app]). reflexivity.
      * rewrite sends_app, sends_resolution, sends_app, sends_connect_steps.
        cbn. rewrite Nat.eqb_refl. reflexivity.
      * reflexivity.
      * unfold IsConnected. cbn. apply Hlaw.
    + split; [|reflexivity].
      rewrite sends_app, sends_resolution, sends_app, sends_connect_steps.
      cbn. rewrite Nat.eqb_refl. reflexivity.
Qed.

End HandshakeProperties.

(** * The error of the connect token *)

Section TokenError.
Context {M T : Type} `{Tok : mqtt.Token T} `{Cl : mqtt.Client M T}
        `{DM : DeviceMethods M}.

(** The loop leaves the device as it is. *)
Lemma loop_preserves_dev (fuel : nat) :
  forall (ch : chan) (u : string) (err : option error) (w : World M),
    dev (world_of (brokerURL_loop fuel ch u err w)) = dev w.
Proof.
  induction fuel as [|fuel IH]; intros ch u err w; [reflexivity|].
  destruct err as [e|]; [|reflexivity].
  destruct (AutoReconnect (dev w)) eqn:Hauto.
  - rewrite loop_retries by assumption. cbn zeta.
    destruct (getBrokerURL (brokerCalls w)) as [u' [e'|]]; [|reflexivity].
    rewrite IH. reflexivity.
  - rewrite loop_gives_up by assumption. reflexivity.
Qed.

(** Without auto-reconnect the steps after broker resolution do not
    depend on what [Error] answers. *)
Lemma after_resolution_ignores_token_error (Error' : T -> option error)
    (ch : chan) (u : string) (w : World M) :
  AutoReconnect (dev w) = false ->
  after_resolution (Tok := with_Error Error') ch u w = after_resolution ch u w.
Proof.
  intros Hauto. unfold_steps. cbn. rewrite ?Hauto.
  decide_answers; rewrite ?Hauto; try congruence; reflexivity.
Qed.

Lemma Connect_ignores_token_error (Error' : T -> option error)
    (fuel : nat) (result : option chan) (w : World M) :
  AutoReconnect (dev w) = false ->
  Connect (Tok := with_Error Error') fuel result w = Connect fuel result w.
Proof.
  intros Hauto. destruct result as [ch|]; [|reflexivity].
  rewrite (Connect_unfold (Tok := with_Error Error')), Connect_unfold.
  unfold call_IsConnected, call_getBrokerURL, get_dev, emit, go_return, ret, log.
  unfold bind.
  destruct (m (dev w)); cbn;
    repeat match goal with
           | |- context [if ?b then _ else _] =>
               destruct b; try reflexivity; cbn
           end;
    destruct (getBrokerURL (brokerCalls w)) as [u err]; cbn;
    match goal with
    | |- context [brokerURL_loop fuel ch u err ?w0] =>
        pose proof (loop_preserves_dev fuel ch u err w0) as Hdev;
        destruct (brokerURL_loop fuel ch u err w0) as [u' w'| | |];
        try reflexivity;
        apply after_resolution_ignores_token_error;
        cbn in Hdev; congruence
    end.
Qed.

(** Without auto-reconnect and with a wait that does not time out, the
    wait is followed by subscription setup and [Error] is not called. *)
Lemma after_resolution_skips_token_error (ch : chan) (u : string)
    (w : World M) (c0 c1 : M) (tok : T) :
  ensureCertificate = None ->
  initializeMQTTClient u = inl c0 ->
  mqtt.Connect c0 = (c1, tok) ->
  AutoReconnect (dev w) = false ->
  mqtt.WaitTimeout tok (30 * Second) = true ->
  exists rest,
    trace (world_of (after_resolution ch u w))
    = (trace w ++ connect_steps false u ++ Call_setupSubscriptions :: rest)%list /\
    count is_Token_Error rest = 0%nat.
Proof.
  intros Hcert Hinit Hconn Hauto Hwait. unfold connect_steps. unfold_steps.
  do 4 (cbn; rewrite ?Hcert, ?Hinit, ?Hconn, ?Hauto, ?Hwait).
  decide_answers; cbn; rewrite <- ?app_assoc; cbn;
    (eexists; split; [reflexivity|]); reflexivity.
Qed.

(** Under auto-reconnect an error of the token is sent and the task goes
    on: a second value follows on the channel. *)
Lemma after_resolution_sends_twice (ch : chan) (u : string)
    (w : World M) (c0 c1 : M) (tok : T) (e : error) :
  ensureCertificate = None ->
  initializeMQTTClient u = inl c0 ->
  mqtt.Connect c0 = (c1, tok) ->
  AutoReconnect (dev w) = true ->
  mqtt.Wait tok = true ->
  mqtt.Error tok = Some e ->
  exists events v,
    trace (world_of (after_resolution ch u w)) = (trace w ++ events)%list /\
    sends ch events = [Some e; v] /\
    terminated (after_resolution ch u w) = true.
Proof.
  intros Hcert Hinit Hconn Hauto Hwait Herr. unfold_steps.
  do 5 (cbn; rewrite ?Hcert, ?Hinit, ?Hconn, ?Hauto, ?Hwait, ?Herr).
  decide_answers; cbn; rewrite <- ?app_assoc; cbn;
    (eexists; eexists; split; [reflexivity|]);
    cbn; rewrite Nat.eqb_refl; split; reflexivity.
Qed.

Lemma Connect_sends_twice
    (d : Device M) (n k fuel : nat) (ch : chan) (url : string)
    (c0 c1 : M) (tok : T) (e : error) :
  IsConnected d = false ->
  size (interfaces d) <> 0%nat ->
  AutoReconnect d = true ->
  (forall i, (i < k)%nat -> snd (getBrokerURL (n + i)) <> None) ->
  getBrokerURL (n + k) = (url, None) ->
  (k < fuel)%nat ->
  ensureCertificate = None ->
  initializeMQTTClient url = inl c0 ->
  mqtt.Connect c0 = (c1, tok) ->
  mqtt.Wait tok = true ->
  mqtt.Error tok = Some e ->
  let o := Connect fuel (Some ch) (start d n) in
  terminated o = true /\
  exists v, sends ch (trace (world_of o)) = [Some e; v].
Proof.
  intros Hconn Hsize Hauto Hfail Hok Hfuel Hcert Hinit Hmc Hwait Herr o.
  subst o. rewrite (Connect_resolves d n k fuel ch url); auto.
  set (w := mkWorld d (n + k + 1) _).
  destruct (after_resolution_sends_twice ch url w c0 c1 tok e)
    as (events & v & Htrace & Hsends & Hterm); auto.
  split; [exact Hterm|]. exists v.
  rewrite Htrace. subst w. cbn [trace].
  rewrite sends_app, sends_resolution. exact Hsends.
Qed.

Lemma count_poll_Token_Error (d : Device M) : count is_Token_Error (poll d) = 0%nat.
Proof. unfold poll. destruct (m d); reflexivity. Qed.

(** C10. Without auto-reconnect, when the handshake reaches the
    transport and the wait on the connect token does not time out, the
    next step is subscription setup: [Error] is not called on the token
    at any point of the task, and the task is the same whatever [Error]
    would answer. *)
Theorem token_error_ignored_without_autoreconnect
    (d : Device M) (n fuel : nat) (ch : chan) (url : string)
    (c0 c1 : M) (tok : T) :
  AutoReconnect d = false ->
  IsConnected d = false ->
  size (interfaces d) <> 0%nat ->
  getBrokerURL n = (url, None) ->
  (0 < fuel)%nat ->
  ensureCertificate = None ->
  initializeMQTTClient url = inl c0 ->
  mqtt.Connect c0 = (c1, tok) ->
  mqtt.WaitTimeout tok (30 * Second) = true ->
  let o := Connect fuel (Some ch) (start d n) in
  (exists rest,
      trace (world_of o)
      = (poll d ++ [Call_getBrokerURL; Println ["Got brokerURL: "; url]]
           ++ connect_steps false url ++ Call_setupSubscriptions :: rest)%list) /\
  count is_Token_Error (trace (world_of o)) = 0%nat /\
  (forall Error' : T -> option error,
      Connect (Tok := with_Error Error') fuel (Some ch) (start d n) = o).
Proof.
  intros Hauto Hconn Hsize Hok Hfuel Hcert Hinit Hmc Hwait o.
  assert (Htrace : exists rest,
             trace (world_of o)
             = (poll d ++ [Call_getBrokerURL; Println ["Got brokerURL: "; url]]
                  ++ connect_steps false url ++ Call_setupSubscriptions :: rest)%list
             /\ count is_Token_Error rest = 0%nat).
  { subst o. rewrite (Connect_resolves d n 0 fuel ch url); auto.
    - set (w := mkWorld d (n + 0 + 1) _).
      destruct (after_resolution_skips_token_error ch url w c0 c1 tok)
        as (rest & Htrace & Hnone); auto.
      exists rest. rewrite Htrace. subst w. cbn [trace retries replicate concat app].
      split; [|exact Hnone].
      repeat (rewrite <- ?app_assoc; cbn [app]). reflexivity.
    - intros i Hi. lia.
    - rewrite Nat.add_0_r. exact Hok. }
  destruct Htrace as (rest & Htrace & Hnone).
  split; [exists rest; exact Htrace|]. split.
  - rewrite Htrace, !count_app, count_poll_Token_Error.
    change (Call_setupSubscriptions :: rest)
      with ([Call_setupSubscriptions] ++ rest)%list.
    rewrite count_app, Hnone. reflexivity.
  - intros Error'. subst o. apply Connect_ignores_token_error. exact Hauto.
Qed.

End TokenError.

(** * How many values reach the channel *)

Section Delivery.
Context {M T : Type} `{Tok : mqtt.Token T} `{Cl : mqtt.Client M T}
        `{DM : DeviceMethods M}.

(** The loop sends nothing unless it gives up, and then one value. *)
Lemma loop_sends (fuel : nat) :
  forall (ch : chan) (u : string) (err : option error) (w : World M),
    exists events,
      trace (world_of (brokerURL_loop fuel ch u err w)) = (trace w ++ events)%list /\
      match brokerURL_loop fuel ch u err w with
      | Continue _ _ | OutOfFuel _ => sends ch events = []
      | Returned _ => exists v, sends ch events = [v]
      | Panicked _ => False
      end.
Proof.
  induction fuel as [|fuel IH]; intros ch u err w.
  - exists []. cbn. rewrite app_nil_r. split; reflexivity.
  - destruct err as [e|].
    + destruct (AutoReconnect (dev w)) eqn:Hauto.
      * rewrite loop_retries by assumption. cbn zeta.
        destruct (getBrokerURL (brokerCalls w)) as [u' [e'|]].
        -- destruct (IH ch u' (Some e') (mkWorld (dev w) (S (brokerCalls w))
                                                 (trace w ++ retry)))
             as (events & Htrace & Hsends).
           exists (retry ++ events)%list. cbn [trace] in Htrace.
           rewrite Htrace, <- app_assoc. split; [reflexivity|].
           rewrite sends_app. exact Hsends.
        -- exists (retry ++ [Println ["Got brokerURL: "; u']])%list.
           cbn [world_of log trace]. rewrite <- app_assoc.
           split; reflexivity.
      * rewrite loop_gives_up by assumption.
        eexists. cbn [world_of log trace]. split; [reflexivity|].
        exists (Some e). cbn. rewrite Nat.eqb_refl. reflexivity.
    + rewrite loop_resolved. eexists. cbn [world_of log trace].
      split; reflexivity.
Qed.

(** The steps after broker resolution send one value when they come to
    an end, or two: the second case is the error of the connect token
    under auto-reconnect. *)
Lemma after_resolution_sends (ch : chan) (u : string) (w : World M) :
  exists events,
    trace (world_of (after_resolution ch u w)) = (trace w ++ events)%list /\
    terminated (after_resolution ch u w) = true /\
    ((exists v, sends ch events = [v]) \/
     (exists c0 c1 tok e v,
         AutoReconnect (dev w) = true /\
         initializeMQTTClient u = inl c0 /\
         mqtt.Connect c0 = (c1, tok) /\
         mqtt.Wait tok = true /\
         mqtt.Error tok = Some e /\
         sends ch events = [Some e; v])).
Proof.
  unfold_steps. cbn.
  decide_answers; flatten_trace;
    (eexists; split; [reflexivity|]); (split; [reflexivity|]);
    cbn; rewrite Nat.eqb_refl;
    first [ left; eexists; reflexivity
          | right; do 5 eexists; repeat split; eauto ].
Qed.

(** The send statements of a [Connect] on a non-nil channel, every send
    taken to complete: a run that comes to an end has one, except under
    auto-reconnect, where it may have two, the first of a non-nil error.
    A run that has not come to an end has none. *)
Lemma Connect_sends (d : Device M) (n fuel : nat) (ch : chan) :
  let o := Connect fuel (Some ch) (start d n) in
  if terminated o then
    (exists v, sends ch (trace (world_of o)) = [v]) \/
    (AutoReconnect d = true /\
     exists e v, sends ch (trace (world_of o)) = [Some e; v])
  else sends ch (trace (world_of o)) = [].
Proof.
  intros o. subst o. rewrite Connect_unfold.
  unfold call_IsConnected, call_getBrokerURL, get_dev, emit, go_return, ret, log, start.
  unfold bind.
  assert (Hloop : forall w0 : World M,
             dev w0 = d -> sends ch (trace w0) = [] ->
             let o := (let '(u, err) := getBrokerURL n in
                       fun w => match brokerURL_loop fuel ch u err w with
                                | Continue a w' => after_resolution ch a w'
                                | Returned w' => Returned w'
                                | OutOfFuel w' => OutOfFuel w'
                                | Panicked w' => Panicked w'
                                end) w0 in
             if terminated o then
               (exists v, sends ch (trace (world_of o)) = [v]) \/
               (AutoReconnect d = true /\
                exists e v, sends ch (trace (world_of o)) = [Some e; v])
             else sends ch (trace (world_of o)) = []).
  { intros w0 Hd0 Hs0. cbn zeta.
    destruct (getBrokerURL n) as [u err].
    destruct (loop_sends fuel ch u err w0) as (ev1 & Htr1 & Hs1).
    pose proof (loop_preserves_dev fuel ch u err w0) as Hdev.
    destruct (brokerURL_loop fuel ch u err w0) as [u' w'|w'|w'|w'];
      cbn [world_of trace dev] in Htr1, Hdev.
    - destruct (after_resolution_sends ch u' w') as (ev2 & Htr2 & Hterm & Hs2).
      rewrite Hterm, Htr2, Htr1, !sends_app, Hs0, Hs1. cbn [app].
      cbv iota.
      destruct Hs2 as [Hs2 | (c0 & c1 & tok & e & v & Hauto & _ & _ & _ & _ & Hs2)].
      + left. exact Hs2.
      + right. split; [congruence | exists e, v; exact Hs2].
    - cbn [terminated world_of]. left. rewrite Htr1, sends_app, Hs0. exact Hs1.
    - cbn [terminated world_of]. rewrite Htr1, sends_app, Hs0, Hs1. reflexivity.
    - contradiction. }
  cbn. destruct (m d) as [c|]; cbn.
  - destruct (mqtt.IsConnected c); cbn.
    + left. eexists. rewrite Nat.eqb_refl. reflexivity.
    + destruct (size (interfaces d) =? 0)%nat; cbn.
      * left. eexists. rewrite Nat.eqb_refl. reflexivity.
      * apply (Hloop (mkWorld d (S n) [M_IsConnected; Call_getBrokerURL]));
          reflexivity.
  - destruct (size (interfaces d) =? 0)%nat; cbn.
    + left. eexists. rewrite Nat.eqb_refl. reflexivity.
    + apply (Hloop (mkWorld d (S n) [Call_getBrokerURL])); reflexivity.
Qed.

(** X19. What reaches a caller that, with the buffer of the channel,
    takes [r] values. Let [o] be the run in which every send completes.
    - While [o] has not come to an end (broker resolution is still
      retrying) nothing is delivered and the task is not blocked.
    - When [o] comes to an end and [r = 0], nothing is delivered and the
      task is blocked at its first send.
    - When [o] comes to an end and [r >= 1], one value is delivered, or,
      only under auto-reconnect and with [r >= 2], a non-nil error and
      one more value.
    - The task is blocked at a send only when [r = 0], or when [r = 1]
      under auto-reconnect, a non-nil error having been delivered.
    - Without auto-reconnect one receive is always enough. *)
Theorem Connect_delivers (d : Device M) (n fuel r : nat) (ch : chan) :
  let o := Connect fuel (Some ch) (start d n) in
  let events := trace (world_of o) in
  (terminated o = false ->
   delivered r ch events = [] /\ blocked r ch events = false) /\
  (terminated o = true -> r = 0%nat ->
   delivered r ch events = [] /\ blocked r ch events = true) /\
  (terminated o = true -> (1 <= r)%nat ->
   (exists v, delivered r ch events = [v]) \/
   (AutoReconnect d = true /\ (2 <= r)%nat /\
    exists e v, delivered r ch events = [Some e; v])) /\
  (blocked r ch events = true ->
   r = 0%nat \/
   (r = 1%nat /\ AutoReconnect d = true /\
    exists e, delivered r ch events = [Some e])) /\
  (AutoReconnect d = false -> (1 <= r)%nat -> blocked r ch events = false).
Proof.
  intros o events. subst events.
  pose proof (Connect_sends d n fuel ch) as Hsends. cbn zeta in Hsends.
  fold o in Hsends. unfold delivered, blocked.
  destruct (terminated o).
  - destruct Hsends as [[v Hs] | [Hauto (e & v & Hs)]]; rewrite Hs.
    + split; [intros Hno; discriminate Hno|].
      split; [intros _ ->; split; reflexivity|].
      split.
      { intros _ Hr. left. exists v. destruct r; [lia|].
        cbn. rewrite take_nil. reflexivity. }
      split.
      * intros Hb. left. destruct r; [reflexivity|].
        cbn in Hb. discriminate Hb.
      * intros _ Hr. destruct r; [lia | reflexivity].
    + split; [intros Hno; discriminate Hno|].
      split; [intros _ ->; split; reflexivity|].
      split.
      * intros _ Hr. destruct r as [|[|r]]; [lia | |].
        -- left. exists (Some e). reflexivity.
        -- right. split; [exact Hauto|]. split; [lia|]. exists e, v.
           cbn. rewrite take_nil. reflexivity.
      * split.
        -- intros Hb. destruct r as [|[|r]]; [left; reflexivity | |].
           ++ right. split; [reflexivity|]. split; [exact Hauto|].
              exists e. reflexivity.
           ++ cbn in Hb. discriminate Hb.
        -- intros Hoff. congruence.
  - rewrite Hsends. rewrite take_nil.
    split; [intros _; split; [reflexivity | destruct r; reflexivity]|].
    split; [intros Hyes; discriminate Hyes|].
    split; [intros Hyes; discriminate Hyes|].
    split.
    + intros Hb. destruct r; discriminate Hb.
    + intros _ _. destruct r; reflexivity.
Qed.

End Delivery.

(** * The handshake on scripted collaborators *)

Section HandshakeExamples.
Import Scripted.

(** C1. Auto-reconnect is enabled and the connect token reports an
    error, while every other step succeeds: the task sends the error of
    the token, goes on with subscription setup and introspection, and
    sends nil as well. Two values reach the channel. *)
Theorem Connect_delivers_twice_on_token_error :
  run (ready_device true) 0 None refused_token None None 1
  = Continue tt
      (mkWorld
         (set_m (ready_device true) (Some (idle_client refused_token)))
         1
         [ Call_getBrokerURL; Println ["Got brokerURL: "; broker];
           Call_ensureCertificate; Call_initializeMQTTClient broker;
           M_Connect; Token_Wait; Token_Error; Token_Error;
           Send 7%nat (Some "connection refused");
           Call_setupSubscriptions; Call_sendIntrospection;
           Send 7%nat None ]) /\
  sends 7%nat (trace (world_of
                   (run (ready_device true) 0 None refused_token None None 1)))
  = [Some "connection refused"; None].
Proof. split; vm_compute; reflexivity. Qed.

(** C6, as stated, fails: a connected device whose registry has been
    emptied gets nil, not the no-interfaces error, and its transport is
    asked whether it is connected. *)
Lemma Connect_connected_without_interfaces :
  size (interfaces connected_empty_device) = 0%nat /\
  run connected_empty_device 0 None ok_token None None 1
  = Returned (mkWorld connected_empty_device 0 [M_IsConnected; Send 7%nat None]).
Proof. split; vm_compute; reflexivity. Qed.

Lemma Connect_without_interfaces_witness :
  run (fresh_device false) 0 None ok_token None None 0
  = Returned
      (mkWorld (fresh_device false) 0
         [Send 7%nat (Some "Add at least an interface before attempting to connect")]).
Proof.
  exact (proj1 (Connect_without_interfaces
                  (Tok := scripted_token) (Cl := scripted_client)
                  (DM := scripted_methods 0 broker None
                           (inl (idle_client ok_token)) None None)
                  (fresh_device false) 0%nat 0%nat 7%nat eq_refl eq_refl)).
Defined.

Lemma broker_resolution_is_the_only_retry_witness :
  (exists rest,
      trace (world_of (run (ready_device true) 2 None ok_token None None 3))
      = (Call_getBrokerURL :: retries 2
           ++ [Println ["Got brokerURL: "; broker]; Call_ensureCertificate] ++ rest)%list
      /\ brokerCalls (world_of (run (ready_device true) 2 None ok_token None None 3))
         = 3%nat) /\
  run (ready_device false) 2 None ok_token None None 1
  = Returned
      (mkWorld (ready_device false) 1
         [Call_getBrokerURL; Println ["Cannot get brokerURL."];
          Send 7%nat (Some "pairing API unreachable")]).
Proof.
  split.
  - destruct (broker_resolution_is_the_only_retry
                (Tok := scripted_token) (Cl := scripted_client)
                (DM := scripted_methods 2 broker None (inl (idle_client ok_token))
                         None None)
                (ready_device true) 0%nat 7%nat)
      as (_ & Hretry & _).
    + reflexivity.
    + vm_compute. discriminate.
    + destruct (Hretry 2%nat 3%nat broker) as (rest & Htrace & Hcalls & _).
      * left. reflexivity.
      * intros i Hi. destruct i as [|[|i]]; [discriminate | discriminate | lia].
      * reflexivity.
      * lia.
      * exists rest. split; [exact Htrace | exact Hcalls].
  - destruct (broker_resolution_is_the_only_retry
                (Tok := scripted_token) (Cl := scripted_client)
                (DM := scripted_methods 2 broker None (inl (idle_client ok_token))
                         None None)
                (ready_device false) 0%nat 7%nat)
      as (Hgiveup & _).
    + reflexivity.
    + vm_compute. discriminate.
    + apply (Hgiveup 0%nat ""); reflexivity.
Defined.

Lemma failure_after_connect_disconnects_witness :
  sends 7%nat (trace (world_of
                   (run (ready_device false) 0 None ok_token
                        (Some "subscribe failed") None 1)))
  = [Some "subscribe failed"] /\
  IsConnected (Cl := scripted_client)
    (dev (world_of (run (ready_device false) 0 None ok_token
                        (Some "subscribe failed") None 1)))
  = false.
Proof.
  pose proof (failure_after_connect_disconnects
                (Tok := scripted_token) (Cl := scripted_client)
                (DM := scripted_methods 0 broker None (inl (idle_client ok_token))
                         (Some "subscribe failed") None)
                (ready_device false) 0%nat 0%nat 1%nat 7%nat broker
                (idle_client ok_token)
                {| connected := true; handshake := ok_token |} ok_token)
    as Hfail.
  cbv beta zeta in Hfail.
  destruct Hfail as (_ & Hsends & _ & Hconn).
  - intros c q. reflexivity.
  - reflexivity.
  - vm_compute. discriminate.
  - right. reflexivity.
  - intros i Hi. lia.
  - reflexivity.
  - lia.
  - reflexivity.
  - reflexivity.
  - reflexivity.
  - reflexivity.
  - split; [exact Hsends | exact Hconn].
Defined.

Lemma token_error_ignored_without_autoreconnect_witness :
  count is_Token_Error
    (trace (world_of (run (ready_device false) 0 None refused_token None None 1)))
  = 0%nat.
Proof.
  apply (token_error_ignored_without_autoreconnect
           (Tok := scripted_token) (Cl := scripted_client)
           (DM := scripted_methods 0 broker None (inl (idle_client refused_token))
                    None None)
           (ready_device false) 0%nat 1%nat 7%nat broker
           (idle_client refused_token)
           {| connected := false; handshake := refused_token |} refused_token);
    try reflexivity.
  - vm_compute. discriminate.
  - lia.
Defined.

End HandshakeExamples.


(** * Further properties of the interface registry *)

Section RegistryFurther.
Context {M : Type} `{V : interfaces.Validators}.
Import interfaces.

Lemma validate_mappings_None (mappings : list AstarteMapping) :
  validate_mappings mappings = None -> Forall mapping_valid mappings.
Proof.
  induction mappings as [|mapping rest IH]; intros Hok; [constructor|].
  cbn [validate_mappings] in Hok.
  destruct (AstarteMappingReliability_IsValid (Reliability mapping)) eqn:Hrel;
    [discriminate|].
  destruct (AstarteMappingRetention_IsValid (Retention mapping)) eqn:Hret;
    [discriminate|].
  destruct (AstarteMappingDatabaseRetentionPolicy_IsValid
              (DatabaseRetentionPolicy mapping)) eqn:Hdrp; [discriminate|].
  constructor; [repeat split; assumption | apply IH; exact Hok].
Qed.

Lemma AddInterface_nil_valid (d : Device M) (i : AstarteInterface) :
  snd (AddInterface d i) = None -> interface_valid i.
Proof.
  unfold AddInterface.
  destruct (AstarteInterfaceAggregation_IsValid (Aggregation i)) eqn:Hagg;
    [discriminate|].
  destruct (AstarteInterfaceType_IsValid (Type_ i)) eqn:Hty; [discriminate|].
  destruct (AstarteInterfaceOwnership_IsValid (Ownership i)) eqn:Hown;
    [discriminate|].
  destruct (validate_mappings (Mappings i)) eqn:Hmaps; [discriminate|].
  intros _. repeat split; try assumption.
  apply validate_mappings_None. exact Hmaps.
Qed.

(** Either the interface is admitted or the device is returned as it was. *)
Lemma AddInterface_cases (d : Device M) (i : AstarteInterface) :
  (interface_valid i /\
   AddInterface d i = (set_interfaces d (<[Name i := i]> (interfaces d)), None))
  \/ (exists err, AddInterface d i = (d, Some err)).
Proof.
  destruct (snd (AddInterface d i)) as [err|] eqn:Hres.
  - right. exists err. revert Hres. unfold AddInterface.
    destruct (AstarteInterfaceAggregation_IsValid _); cbn; [congruence|].
    destruct (AstarteInterfaceType_IsValid _); cbn; [congruence|].
    destruct (AstarteInterfaceOwnership_IsValid _); cbn; [congruence|].
    destruct (validate_mappings _); cbn; [congruence|discriminate].
  - left. pose proof (AddInterface_nil_valid d i Hres) as Hvalid.
    split; [exact Hvalid | apply AddInterface_valid; exact Hvalid].
Qed.

(** X1. [AddInterface] returns nil exactly when every enumerated field of
    the interface is legal, and exactly then the interface is what the
    registry holds under its name after the call. *)
Theorem AddInterface_nil_iff_valid (d : Device M) (i : AstarteInterface) :
  (snd (AddInterface d i) = None <-> interface_valid i) /\
  (interface_valid i ->
   interfaces (fst (AddInterface d i)) !! Name i = Some i) /\
  (~ interface_valid i ->
   interfaces (fst (AddInterface d i)) !! Name i = interfaces d !! Name i).
Proof.
  split; [split|split].
  - apply AddInterface_nil_valid.
  - intros Hvalid. rewrite (AddInterface_valid d i Hvalid). reflexivity.
  - intros Hvalid. rewrite (AddInterface_valid d i Hvalid).
    cbn [fst set_interfaces interfaces]. apply lookup_insert_eq.
  - intros Hbad. destruct (AddInterface_cases d i) as [[Hvalid _] | [err Herr]];
      [contradiction|]. rewrite Herr. reflexivity.
Qed.

(** X2. Whatever the outcome, [AddInterface] touches nothing but the
    entry under the name of the interface: every other name is looked up
    as before, and the identity of the device, its client, its API client
    and its auto-reconnect flag are what they were. *)
Theorem AddInterface_frame (d : Device M) (i : AstarteInterface) (name : string) :
  name <> Name i ->
  let d' := fst (AddInterface d i) in
  interfaces d' !! name = interfaces d !! name /\
  deviceID d' = deviceID d /\ realm d' = realm d /\
  persistencyDir d' = persistencyDir d /\ m d' = m d /\
  astarteAPIClient d' = astarteAPIClient d /\
  AutoReconnect d' = AutoReconnect d.
Proof.
  intros Hname d'. subst d'.
  destruct (AddInterface_cases d i) as [[_ Hadd] | [err Hadd]]; rewrite Hadd;
    cbn [fst set_interfaces interfaces deviceID realm persistencyDir m
         astarteAPIClient AutoReconnect].
  - split; [|repeat split]. apply lookup_insert_ne. congruence.
  - repeat split.
Qed.

(** X3. [RemoveInterface] goes by the name alone: afterwards nothing is
    registered under the name of its argument, whatever the rest of the
    argument says, every other name is looked up as before, and two
    arguments of the same name remove the same entry. *)
Theorem RemoveInterface_by_name (d : Device M) (x y : AstarteInterface)
    (name : string) :
  Name x = Name y ->
  name <> Name x ->
  interfaces (RemoveInterface d x) !! Name x = None /\
  interfaces (RemoveInterface d x) !! name = interfaces d !! name /\
  RemoveInterface d x = RemoveInterface d y.
Proof.
  intros Hxy Hname. unfold RemoveInterface. cbn [set_interfaces interfaces].
  split; [apply lookup_delete_eq|]. split.
  - apply lookup_delete_ne. congruence.
  - rewrite Hxy. reflexivity.
Qed.

(** X4. Removing an interface that is not registered leaves the device
    as it is. *)
Theorem RemoveInterface_not_registered (d : Device M) (i : AstarteInterface) :
  interfaces d !! Name i = None -> RemoveInterface d i = d.
Proof.
  intros Habs. unfold RemoveInterface. rewrite delete_id by assumption.
  destruct d; reflexivity.
Qed.

(** X5. Adding a valid interface and removing it again gives the device
    that removing alone gives: the device as it was when the name was
    free, and otherwise the device without the definition that the name
    had before, which is not restored. *)
Theorem RemoveInterface_after_AddInterface (d : Device M) (i : AstarteInterface) :
  interface_valid i ->
  RemoveInterface (fst (AddInterface d i)) i = RemoveInterface d i /\
  (interfaces d !! Name i = None ->
   RemoveInterface (fst (AddInterface d i)) i = d) /\
  interfaces (RemoveInterface (fst (AddInterface d i)) i) !! Name i = None.
Proof.
  intros Hvalid. rewrite (AddInterface_valid d i Hvalid). cbn [fst].
  assert (Heq : RemoveInterface
                  (set_interfaces d (<[Name i := i]> (interfaces d))) i
                = RemoveInterface d i).
  { unfold RemoveInterface. cbn [set_interfaces interfaces deviceID realm
      persistencyDir m astarteAPIClient AutoReconnect].
    rewrite delete_insert_eq. reflexivity. }
  rewrite Heq. split; [reflexivity|]. split.
  - intros Habs. unfold RemoveInterface. rewrite delete_id by assumption.
    destruct d; reflexivity.
  - unfold RemoveInterface. cbn [set_interfaces interfaces].
    apply lookup_delete_eq.
Qed.

(** X6. The registry holds only interfaces that passed validation, each
    under its own name: [AddInterface] and [RemoveInterface] keep it so,
    whatever interface they are given. *)
Theorem registry_ok_preserved (d : Device M) (i : AstarteInterface) :
  registry_ok d ->
  registry_ok (fst (AddInterface d i)) /\ registry_ok (RemoveInterface d i).
Proof.
  unfold registry_ok. intros Hok. split.
  - destruct (AddInterface_cases d i) as [[Hvalid Hadd] | [err Hadd]];
      rewrite Hadd; cbn [fst set_interfaces interfaces].
    + apply map_Forall_insert_2; [split; [reflexivity | exact Hvalid] | exact Hok].
    + exact Hok.
  - unfold RemoveInterface. cbn [set_interfaces interfaces].
    apply map_Forall_delete. exact Hok.
Qed.

(** X7. An interface without mappings is admitted as soon as its
    aggregation, type and ownership are legal: no mapping is asked for. *)
Theorem AddInterface_without_mappings (d : Device M) (i : AstarteInterface) :
  Mappings i = [] ->
  AstarteInterfaceAggregation_IsValid (Aggregation i) = None ->
  AstarteInterfaceType_IsValid (Type_ i) = None ->
  AstarteInterfaceOwnership_IsValid (Ownership i) = None ->
  AddInterface d i = (set_interfaces d (<[Name i := i]> (interfaces d)), None) /\
  size (interfaces (fst (AddInterface d i))) <> 0%nat.
Proof.
  intros Hnone Hagg Hty Hown.
  assert (Hadd : AddInterface d i
                 = (set_interfaces d (<[Name i := i]> (interfaces d)), None)).
  { apply AddInterface_valid. repeat split; try assumption.
    rewrite Hnone. constructor. }
  rewrite Hadd. split; [reflexivity|].
  cbn [fst set_interfaces interfaces].
  apply map_size_non_empty_iff, insert_non_empty.
Qed.

End RegistryFurther.

(** * Further properties of construction *)

Section ConstructionFurther.
Context {M : Type} `{IDs : misc.DeviceIDRule} `{NC : client.Constructor}
        `{FS : ioutil.FileSystem}.

(** What [newDevice] returns, by cases. *)
Lemma newDevice_cases (id realm_ secret url dir : string) :
  let urls := [(misc.Pairing, url)] in
  (misc.IsValidAstarteDeviceID id = false /\
   newDevice (M := M) id realm_ secret url dir
   = ([], (None, Some (id ++ " is not a valid Device ID")))) \/
  (misc.IsValidAstarteDeviceID id = true /\
   exists err, client.NewClientWithIndividualURLs urls = inr err /\
     newDevice (M := M) id realm_ secret url dir
     = ([Client_NewClientWithIndividualURLs urls], (None, Some err))) \/
  (misc.IsValidAstarteDeviceID id = true /\
   exists c, client.NewClientWithIndividualURLs urls = inl c /\
     newDevice (M := M) id realm_ secret url dir
     = ([Client_NewClientWithIndividualURLs urls],
        (Some (mkDevice id realm_ dir None ∅
                        (Some (client.SetToken c secret)) false),
         None))).
Proof.
  intros urls. unfold newDevice. fold urls.
  destruct (misc.IsValidAstarteDeviceID id) eqn:Hvalid; cbn [negb].
  - right. destruct (client.NewClientWithIndividualURLs urls) as [c|err] eqn:Hnew.
    + right. split; [reflexivity|]. exists c. split; reflexivity.
    + left. split; [reflexivity|]. exists err. split; reflexivity.
  - left. split; reflexivity.
Qed.

Lemma newDevice_returns_fresh_device_aux
    (id realm_ secret url dir : string) (d : Device M) :
  snd (newDevice id realm_ secret url dir) = (Some d, None) ->
  misc.IsValidAstarteDeviceID id = true /\
  persistencyDir d = dir /\
  dirs_created (fst (newDevice (M := M) id realm_ secret url dir)) = [].
Proof.
  intros Hres.
  destruct (newDevice_cases id realm_ secret url dir)
    as [[_ Hnew] | [[_ (err & _ & Hnew)] | [Hvalid (c & Hc & Hnew)]]];
    rewrite Hnew in Hres |- *; cbn [fst snd] in Hres |- *; try discriminate.
  injection Hres as <-. repeat split. exact Hvalid.
Qed.

(** X8. When [newDevice] returns a device, the device ID has passed the
    rule, the device carries the arguments it was built from, it has no
    transport client, an empty registry and auto-reconnect off, its API
    client is the one built for the pairing URL with the credentials
    secret as token, and no directory has been created. *)
Theorem newDevice_returns_fresh_device
    (id realm_ secret url dir : string) (d : Device M) :
  snd (newDevice id realm_ secret url dir) = (Some d, None) ->
  misc.IsValidAstarteDeviceID id = true /\
  deviceID d = id /\ realm d = realm_ /\ persistencyDir d = dir /\
  m d = None /\ interfaces d = ∅ /\ AutoReconnect d = false /\
  (exists c c',
      client.NewClientWithIndividualURLs [(misc.Pairing, url)] = inl c /\
      astarteAPIClient d = Some c' /\
      client.urls c' = client.urls c /\ client.token c' = secret) /\
  clients_requested (fst (newDevice (M := M) id realm_ secret url dir)) = 1%nat /\
  dirs_created (fst (newDevice (M := M) id realm_ secret url dir)) = [].
Proof.
  intros Hres.
  destruct (newDevice_cases id realm_ secret url dir)
    as [[_ Hnew] | [[_ (err & _ & Hnew)] | [Hvalid (c & Hc & Hnew)]]];
    rewrite Hnew in Hres |- *; cbn [fst snd] in Hres |- *; try discriminate.
  injection Hres as <-.
  split; [exact Hvalid|]. do 6 (split; [reflexivity|]).
  split; [|split; reflexivity].
  exists c, (client.SetToken c secret). repeat split. exact Hc.
Qed.

(** X9. Construction returns a device or an error, never both and never
    neither, through each of the three constructors. *)
Theorem construction_device_or_error (id realm_ secret url dir : string) :
  let either (r : option (Device M) * option error) :=
    (exists d, r = (Some d, None)) \/ (exists err, r = (None, Some err)) in
  either (snd (newDevice id realm_ secret url dir)) /\
  either (snd (NewDeviceWithPersistency id realm_ secret url dir)) /\
  either (snd (NewDevice id realm_ secret url)).
Proof.
  intros either. subst either.
  assert (Hnew : forall dir',
             (exists d, snd (newDevice (M := M) id realm_ secret url dir')
                        = (Some d, None)) \/
             (exists err, snd (newDevice (M := M) id realm_ secret url dir')
                          = (None, Some err))).
  { intros dir'.
    destruct (newDevice_cases id realm_ secret url dir')
      as [[_ Hnew] | [[_ (err & _ & Hnew)] | [_ (c & _ & Hnew)]]];
      rewrite Hnew; cbn [snd]; eauto. }
  split; [apply Hnew|]. split; [apply Hnew|].
  unfold NewDevice.
  destruct (ioutil.TempDir "" id) as [name [err|]]; cbn [non_nil snd].
  - right. eauto.
  - destruct (newDevice (M := M) id realm_ secret url name) as [events r] eqn:Hr.
    cbn [snd]. specialize (Hnew name). rewrite Hr in Hnew. exact Hnew.
Qed.

(** X10. When [TempDir] fails, [NewDevice] returns its error and does
    nothing more, whatever the device ID: the ID is not looked at and no
    API client is asked for. *)
Theorem NewDevice_TempDir_failure
    (id realm_ secret url name : string) (err : error) :
  ioutil.TempDir "" id = (name, Some err) ->
  NewDevice (M := M) id realm_ secret url
  = ([Ioutil_TempDir "" id name (Some err)], (None, Some err)) /\
  clients_requested (fst (NewDevice (M := M) id realm_ secret url)) = 0%nat /\
  dirs_created (fst (NewDevice (M := M) id realm_ secret url)) = [].
Proof.
  intros Htmp. unfold NewDevice. rewrite Htmp. cbn [non_nil].
  repeat split.
Qed.

(** X11. When [NewDevice] returns a device, [TempDir] has been called
    with the device ID as pattern and has succeeded, the directory it
    made is the persistency directory of the device and the only
    directory created, and the device is otherwise what
    [NewDeviceWithPersistency] returns for that directory. *)
Theorem NewDevice_uses_temporary_directory
    (id realm_ secret url : string) (d : Device M) :
  snd (NewDevice id realm_ secret url) = (Some d, None) ->
  exists name,
    ioutil.TempDir "" id = (name, None) /\
    persistencyDir d = name /\
    dirs_created (fst (NewDevice (M := M) id realm_ secret url)) = [name] /\
    snd (NewDeviceWithPersistency id realm_ secret url name) = (Some d, None) /\
    misc.IsValidAstarteDeviceID id = true.
Proof.
  unfold NewDevice, NewDeviceWithPersistency.
  destruct (ioutil.TempDir "" id) as [name [err|]]; cbn [non_nil snd];
    [discriminate|].
  destruct (newDevice (M := M) id realm_ secret url name) as [events r] eqn:Hr.
  cbn [snd fst]. intros ->.
  assert (Hsnd : snd (newDevice id realm_ secret url name) = (Some d, None))
    by (rewrite Hr; reflexivity).
  destruct (newDevice_returns_fresh_device_aux id realm_ secret url name d Hsnd)
    as (Hvalid & Hdir & Hdirs).
  exists name. split; [reflexivity|]. split; [exact Hdir|].
  rewrite Hr in Hdirs. cbn [fst] in Hdirs.
  split; [cbn [dirs_created]; rewrite Hdirs; reflexivity|].
  split; [exact Hsnd | exact Hvalid].
Qed.

End ConstructionFurther.

(** * Further properties of the handshake *)

Section HandshakeFurther.
Context {M T : Type} `{Tok : mqtt.Token T} `{Cl : mqtt.Client M T}
        `{DM : DeviceMethods M}.

(** The no-interfaces error, for a device that is not connected. *)
Lemma Connect_empty_registry (d : Device M) (n fuel : nat) (ch : chan) :
  IsConnected d = false ->
  size (interfaces d) = 0%nat ->
  Connect fuel (Some ch) (start d n)
  = Returned
      (mkWorld d n
         (poll d ++
          [Send ch (Some "Add at least an interface before attempting to connect")])).
Proof.
  intros Hconn Hsize. rewrite Connect_unfold.
  apply Nat.eqb_eq in Hsize.
  unfold IsConnected in Hconn. unfold poll.
  unfold call_IsConnected, bind, get_dev, emit, ret, go_return, start, log.
  destruct (m d) as [c|] eqn:Hm;
    do 4 (cbn; rewrite ?Hm, ?Hconn, ?Hsize); reflexivity.
Qed.

(** X12. On a device that is connected, [Connect] asks the transport
    once whether it is connected, sends nil and returns, whatever the
    registry holds: the pairing service is not called and the device is
    left as it is. *)
Theorem Connect_already_connected (fuel : nat) (ch : chan) (w : World M) :
  IsConnected (dev w) = true ->
  Connect fuel (Some ch) w
  = Returned (mkWorld (dev w) (brokerCalls w)
                      (trace w ++ [M_IsConnected; Send ch None])).
Proof.
  intros Hconn. rewrite Connect_unfold.
  unfold IsConnected in Hconn.
  unfold call_IsConnected, bind, get_dev, emit, ret, go_return, log.
  destruct (m (dev w)) as [c|] eqn:Hm; [|discriminate].
  do 3 (cbn; rewrite ?Hm, ?Hconn). rewrite <- app_assoc. reflexivity.
Qed.

(** X13. [Disconnect] does not look at its channel. On a device without
    a transport client it dereferences the nil client; on a device with a
    client it asks that client once to disconnect, with 2000 ms to
    quiesce, sends nothing on any channel, and leaves the rest of the
    device as it is. *)
Theorem Disconnect_ignores_channel (result : option chan) (w : World M) :
  Disconnect result w = Disconnect None w /\
  match m (dev w) with
  | None => Disconnect result w = Panicked w
  | Some c =>
      Disconnect result w
      = Continue tt
          (mkWorld (set_m (dev w) (Some (mqtt.Disconnect c 2000)))
                   (brokerCalls w) (trace w ++ [M_Disconnect 2000])) /\
      (forall ch, sends ch (trace (world_of (Disconnect result w)))
                  = sends ch (trace w)) /\
      interfaces (dev (world_of (Disconnect result w))) = interfaces (dev w)
  end.
Proof.
  split; [reflexivity|].
  unfold Disconnect, m_Disconnect, deref_m, bind, emit, put_m, log.
  destruct (m (dev w)) as [c|] eqn:Hm; cbn; rewrite ?Hm; [|reflexivity].
  split; [reflexivity|]. split; [|reflexivity].
  intros ch. rewrite sends_app. cbn [sends]. apply app_nil_r.
Qed.

(** The steps after broker resolution leave every field of the device
    but the client alone. *)
Lemma after_resolution_frame (ch : chan) (u : string) (w : World M) :
  let d' := dev (world_of (after_resolution ch u w)) in
  deviceID d' = deviceID (dev w) /\ realm d' = realm (dev w) /\
  persistencyDir d' = persistencyDir (dev w) /\
  interfaces d' = interfaces (dev w) /\
  astarteAPIClient d' = astarteAPIClient (dev w) /\
  AutoReconnect d' = AutoReconnect (dev w).
Proof.
  unfold_steps. cbn. decide_answers; cbn; repeat split; congruence.
Qed.

(** X14. [Connect] changes no field of the device other than the
    transport client: the identity, the persistency directory, the
    registry, the API client and the auto-reconnect flag are the same
    after every run, finished or not, on a nil channel or not. *)
Theorem Connect_frame (d : Device M) (n fuel : nat) (result : option chan) :
  let d' := dev (world_of (Connect fuel result (start d n))) in
  deviceID d' = deviceID d /\ realm d' = realm d /\
  persistencyDir d' = persistencyDir d /\
  interfaces d' = interfaces d /\
  astarteAPIClient d' = astarteAPIClient d /\
  AutoReconnect d' = AutoReconnect d.
Proof.
  destruct result as [ch|]; [|cbn; repeat split].
  rewrite Connect_unfold.
  unfold call_IsConnected, call_getBrokerURL, get_dev, emit, go_return, ret, log, start.
  unfold bind. cbn.
  assert (Hloop : forall w0 : World M,
             dev w0 = d ->
             let d' := dev (world_of
                        ((let '(u, err) := getBrokerURL n in
                          fun w => match brokerURL_loop fuel ch u err w with
                                   | Continue a w' => after_resolution ch a w'
                                   | Returned w' => Returned w'
                                   | OutOfFuel w' => OutOfFuel w'
                                   | Panicked w' => Panicked w'
                                   end) w0)) in
             deviceID d' = deviceID d /\ realm d' = realm d /\
             persistencyDir d' = persistencyDir d /\
             interfaces d' = interfaces d /\
             astarteAPIClient d' = astarteAPIClient d /\
             AutoReconnect d' = AutoReconnect d).
  { intros w0 Hd0. cbn zeta. destruct (getBrokerURL n) as [u err].
    pose proof (loop_preserves_dev fuel ch u err w0) as Hdev.
    destruct (brokerURL_loop fuel ch u err w0) as [u' w'|w'|w'|w'];
      cbn [world_of] in Hdev |- *; try (rewrite Hdev, Hd0; repeat split).
    pose proof (after_resolution_frame ch u' w') as Hframe. cbn zeta in Hframe.
    rewrite Hdev, Hd0 in Hframe. exact Hframe. }
  destruct (m d) as [c|]; cbn.
  - destruct (mqtt.IsConnected c); cbn; [repeat split|].
    destruct (size (interfaces d) =? 0)%nat; cbn; [repeat split|].
    apply (Hloop (mkWorld d (S n) [M_IsConnected; Call_getBrokerURL])).
    reflexivity.
  - destruct (size (interfaces d) =? 0)%nat; cbn; [repeat split|].
    apply (Hloop (mkWorld d (S n) [Call_getBrokerURL])). reflexivity.
Qed.

(** Under auto-reconnect the loop never executes [return]. *)
Lemma loop_never_gives_up (fuel : nat) :
  forall (ch : chan) (u : string) (err : option error) (w : World M),
    AutoReconnect (dev w) = true ->
    match brokerURL_loop fuel ch u err w with
    | Continue _ _ | OutOfFuel _ => True
    | Returned _ | Panicked _ => False
    end.
Proof.
  induction fuel as [|fuel IH]; intros ch u err w Hauto; [exact I|].
  destruct err as [e|]; [|rewrite loop_resolved; exact I].
  rewrite loop_retries by assumption. cbn zeta.
  destruct (getBrokerURL (brokerCalls w)) as [u' [e'|]]; [|exact I].
  apply IH. exact Hauto.
Qed.

(** X15. Under auto-reconnect a failure of broker resolution is never
    reported: a [Connect] that has come to an end on a device that was
    not connected and had an interface has reached certificate
    assurance, and has sent nothing before it. *)
Theorem Connect_autoreconnect_reaches_certificate
    (d : Device M) (n fuel : nat) (ch : chan) :
  AutoReconnect d = true ->
  IsConnected d = false ->
  size (interfaces d) <> 0%nat ->
  terminated (Connect fuel (Some ch) (start d n)) = true ->
  exists pre rest,
    trace (world_of (Connect fuel (Some ch) (start d n)))
    = (pre ++ Call_ensureCertificate :: rest)%list /\
    sends ch pre = [].
Proof.
  intros Hauto Hconn Hsize.
  rewrite Connect_enters_resolution by assumption.
  set (w0 := mkWorld d (S n) _).
  set (u := fst (getBrokerURL n)). set (err := snd (getBrokerURL n)).
  unfold bind.
  pose proof (loop_never_gives_up fuel ch u err w0 Hauto) as Hnever.
  destruct (loop_sends fuel ch u err w0) as (ev1 & Htr1 & Hs1).
  destruct (brokerURL_loop fuel ch u err w0) as [u' w'|w'|w'|w'];
    try contradiction; cbn [world_of] in Htr1; [|discriminate].
  intros _.
  destruct (after_resolution_steps_once ch u' w') as (rest & Htr2 & _).
  exists (trace w0 ++ ev1)%list, rest. rewrite Htr2, Htr1.
  split; [reflexivity|].
  rewrite sends_app, Hs1. subst w0. cbn [trace].
  rewrite sends_app, sends_poll. reflexivity.
Qed.

(** The wait on the connect token times out. *)
Lemma after_resolution_timeout (ch : chan) (u : string) (w : World M)
    (c0 c1 : M) (tok : T) :
  ensureCertificate = None ->
  initializeMQTTClient u = inl c0 ->
  mqtt.Connect c0 = (c1, tok) ->
  AutoReconnect (dev w) = false ->
  mqtt.WaitTimeout tok (30 * Second) = false ->
  after_resolution ch u w
  = Returned
      (mkWorld (set_m (dev w) (Some c1)) (brokerCalls w)
         (trace w ++ connect_steps false u
            ++ [Send ch (Some "Timed out while connecting to the Broker.")])).
Proof.
  intros Hcert Hinit Hconn Hauto Hwait. unfold connect_steps. unfold_steps.
  do 4 (cbn; rewrite ?Hcert, ?Hinit, ?Hconn, ?Hauto, ?Hwait).
  rewrite <- !app_assoc. reflexivity.
Qed.

(** X16. Without auto-reconnect, when the wait of 30 seconds on the
    connect token times out, the time-out error is the one value sent and
    the task returns: subscription setup and introspection do not run,
    the transport is not asked to disconnect, and the device keeps the
    client of the attempt. *)
Theorem Connect_timeout
    (d : Device M) (n fuel : nat) (ch : chan) (url : string)
    (c0 c1 : M) (tok : T) :
  AutoReconnect d = false ->
  IsConnected d = false ->
  size (interfaces d) <> 0%nat ->
  getBrokerURL n = (url, None) ->
  (0 < fuel)%nat ->
  ensureCertificate = None ->
  initializeMQTTClient url = inl c0 ->
  mqtt.Connect c0 = (c1, tok) ->
  mqtt.WaitTimeout tok (30 * Second) = false ->
  let o := Connect fuel (Some ch) (start d n) in
  o = Returned
        (mkWorld (set_m d (Some c1)) (S n)
           (poll d ++ [Call_getBrokerURL; Println ["Got brokerURL: "; url]]
              ++ connect_steps false url
              ++ [Send ch (Some "Timed out while connecting to the Broker.")])) /\
  sends ch (trace (world_of o))
  = [Some "Timed out while connecting to the Broker."] /\
  IsConnected (dev (world_of o)) = mqtt.IsConnected c1.
Proof.
  intros Hauto Hconn Hsize Hok Hfuel Hcert Hinit Hmc Hwait o.
  assert (Ho : o = Returned
        (mkWorld (set_m d (Some c1)) (S n)
           (poll d ++ [Call_getBrokerURL; Println ["Got brokerURL: "; url]]
              ++ connect_steps false url
              ++ [Send ch (Some "Timed out while connecting to the Broker.")]))).
  { subst o. rewrite (Connect_resolves d n 0 fuel ch url); auto.
    - rewrite (after_resolution_timeout ch url _ c0 c1 tok) by assumption.
      cbn [dev brokerCalls trace retries replicate concat app].
      rewrite Nat.add_0_r, Nat.add_1_r.
      repeat (rewrite <- ?app_assoc; cbn [app]). reflexivity.
    - intros i Hi. lia.
    - rewrite Nat.add_0_r. exact Hok. }
  rewrite Ho. cbn [world_of trace dev]. split; [reflexivity|]. split.
  - rewrite sends_app, sends_poll. cbn. rewrite Nat.eqb_refl. reflexivity.
  - reflexivity.
Qed.

(** X17. A failure of [initializeMQTTClient] ends the task: its error is
    the one value sent, and neither the transport handshake nor any later
    step runs. *)
Theorem Connect_client_initialisation_failure
    (d : Device M) (n k fuel : nat) (ch : chan) (url : string) (e : error) :
  IsConnected d = false ->
  size (interfaces d) <> 0%nat ->
  AutoReconnect d = true \/ k = 0%nat ->
  (forall i, (i < k)%nat -> snd (getBrokerURL (n + i)) <> None) ->
  getBrokerURL (n + k) = (url, None) ->
  (k < fuel)%nat ->
  ensureCertificate = None ->
  initializeMQTTClient url = inr e ->
  let o := Connect fuel (Some ch) (start d n) in
  terminated o = true /\
  trace (world_of o)
  = (poll d ++ Call_getBrokerURL :: retries k
       ++ [Println ["Got brokerURL: "; url]; Call_ensureCertificate;
           Call_initializeMQTTClient url; Send ch (Some e)])%list /\
  sends ch (trace (world_of o)) = [Some e] /\
  count is_M_Connect (trace (world_of o)) = 0%nat.
Proof.
  intros Hconn Hsize Hauto Hfail Hok Hfuel Hcert Hinit o.
  assert (Ho : o = Returned
                 (mkWorld d (n + k + 1)
                    (poll d ++ Call_getBrokerURL :: retries k
                       ++ [Println ["Got brokerURL: "; url]; Call_ensureCertificate;
                           Call_initializeMQTTClient url; Send ch (Some e)]))).
  { subst o. rewrite (Connect_resolves d n k fuel ch url) by assumption.
    unfold_steps. do 3 (cbn; rewrite ?Hcert, ?Hinit).
    repeat (rewrite <- ?app_assoc; cbn [app]). reflexivity. }
  rewrite Ho. cbn [world_of trace terminated].
  split; [reflexivity|]. split; [reflexivity|]. split.
  - rewrite sends_app, sends_poll. cbn [sends app].
    rewrite sends_app, sends_retries. cbn. rewrite Nat.eqb_refl. reflexivity.
  - rewrite count_app.
    change (Call_getBrokerURL :: retries k ++ ?l)
      with ([Call_getBrokerURL] ++ retries k ++ l)%list.
    rewrite !count_app, count_retries.
    replace (count is_M_Connect retry) with 0%nat by reflexivity.
    rewrite Nat.mul_0_r.
    unfold poll. destruct (m d); reflexivity.
Qed.

(** X18. When every step succeeds the steps run in the order of the
    source, nil is the one value sent, and the device ends with the
    client as [sendIntrospection] left it, its registry untouched. *)
Theorem Connect_success
    (d : Device M) (n k fuel : nat) (ch : chan) (url : string)
    (c0 c1 c2 c3 : M) (tok : T) :
  IsConnected d = false ->
  size (interfaces d) <> 0%nat ->
  AutoReconnect d = true \/ k = 0%nat ->
  (forall i, (i < k)%nat -> snd (getBrokerURL (n + i)) <> None) ->
  getBrokerURL (n + k) = (url, None) ->
  (k < fuel)%nat ->
  ensureCertificate = None ->
  initializeMQTTClient url = inl c0 ->
  mqtt.Connect c0 = (c1, tok) ->
  transport_connected (AutoReconnect d) tok ->
  setupSubscriptions (interfaces d) c1 = (c2, None) ->
  sendIntrospection (interfaces d) c2 = (c3, None) ->
  let o := Connect fuel (Some ch) (start d n) in
  o = Continue tt
        (mkWorld (set_m d (Some c3)) (n + k + 1)
           (poll d ++ Call_getBrokerURL :: retries k
              ++ [Println ["Got brokerURL: "; url]]
              ++ connect_steps (AutoReconnect d) url
              ++ [Call_setupSubscriptions; Call_sendIntrospection;
                  Send ch None])) /\
  IsConnected (dev (world_of o)) = mqtt.IsConnected c3 /\
  interfaces (dev (world_of o)) = interfaces d.
Proof.
  intros Hconn Hsize Hauto Hfail Hok Hfuel Hcert Hinit Hmc Htok Hsub Hint o.
  assert (Ho : o = Continue tt
        (mkWorld (set_m d (Some c3)) (n + k + 1)
           (poll d ++ Call_getBrokerURL :: retries k
              ++ [Println ["Got brokerURL: "; url]]
              ++ connect_steps (AutoReconnect d) url
              ++ [Call_setupSubscriptions; Call_sendIntrospection;
                  Send ch None]))).
  { subst o. rewrite (Connect_resolves d n k fuel ch url) by assumption.
    rewrite (after_resolution_introspection ch url _ c0 c1 c2 c3 tok None)
      by assumption.
    cbn [dev brokerCalls trace].
    repeat (rewrite <- ?app_assoc; cbn [app]). reflexivity. }
  rewrite Ho. repeat split.
Qed.

End HandshakeFurther.

(** * The registry and the handshake together *)

Section Lifecycle.
Context {M T : Type} `{V : interfaces.Validators}
        `{Tok : mqtt.Token T} `{Cl : mqtt.Client M T} `{DM : DeviceMethods M}
        `{IDs : misc.DeviceIDRule} `{NC : client.Constructor}.
Import interfaces.

(** Once broker resolution is entered the first call of [getBrokerURL]
    stays at the head of the trace. *)
Lemma Connect_calls_getBrokerURL (d : Device M) (n fuel : nat) (ch : chan) :
  IsConnected d = false ->
  size (interfaces d) <> 0%nat ->
  exists rest,
    trace (world_of (Connect fuel (Some ch) (start d n)))
    = (poll d ++ Call_getBrokerURL :: rest)%list.
Proof.
  intros Hconn Hsize. rewrite Connect_enters_resolution by assumption.
  set (w0 := mkWorld d (S n) _).
  set (u := fst (getBrokerURL n)). set (err := snd (getBrokerURL n)).
  unfold bind.
  destruct (loop_sends fuel ch u err w0) as (ev1 & Htr1 & _).
  destruct (brokerURL_loop fuel ch u err w0) as [u' w'|w'|w'|w'];
    cbn [world_of] in Htr1 |- *.
  - destruct (after_resolution_steps_once ch u' w') as (rest & Htr2 & _).
    exists (ev1 ++ Call_ensureCertificate :: rest)%list.
    rewrite Htr2, Htr1. subst w0. cbn [trace].
    repeat (rewrite <- ?app_assoc; cbn [app]). reflexivity.
  - exists ev1. rewrite Htr1. subst w0. cbn [trace].
    repeat (rewrite <- ?app_assoc; cbn [app]). reflexivity.
  - exists ev1. rewrite Htr1. subst w0. cbn [trace].
    repeat (rewrite <- ?app_assoc; cbn [app]). reflexivity.
  - exists ev1. rewrite Htr1. subst w0. cbn [trace].
    repeat (rewrite <- ?app_assoc; cbn [app]). reflexivity.
Qed.

(** X20. A device as [newDevice] returns it is idle: its registry is in
    order, it is not connected, [Disconnect] on it dereferences the nil
    client, and [Connect] on it sends the no-interfaces error and returns
    without calling the pairing service or the transport. *)
Theorem fresh_device_is_idle
    (id realm_ secret url dir : string) (d : Device M) :
  snd (newDevice id realm_ secret url dir) = (Some d, None) ->
  registry_ok d /\
  IsConnected d = false /\
  (forall result n, Disconnect result (start d n) = Panicked (start d n)) /\
  (forall fuel ch n,
      Connect fuel (Some ch) (start d n)
      = Returned
          (mkWorld d n
             [Send ch (Some "Add at least an interface before attempting to connect")])).
Proof.
  intros Hres.
  assert (Hd : m d = None /\ interfaces d = ∅).
  { destruct (newDevice_cases (M := M) id realm_ secret url dir)
      as [[_ Hnew] | [[_ (err & _ & Hnew)] | [_ (c & _ & Hnew)]]];
      rewrite Hnew in Hres; cbn [snd] in Hres; try discriminate.
    injection Hres as <-. split; reflexivity. }
  destruct Hd as [Hm Hreg].
  split; [|split; [|split]].
  - unfold registry_ok. rewrite Hreg. apply map_Forall_empty.
  - unfold IsConnected. rewrite Hm. reflexivity.
  - intros result n.
    unfold Disconnect, m_Disconnect, deref_m, bind, start. cbn [dev].
    rewrite Hm. reflexivity.
  - intros fuel ch n.
    rewrite Connect_empty_registry.
    + unfold poll. rewrite Hm. reflexivity.
    + unfold IsConnected. rewrite Hm. reflexivity.
    + rewrite Hreg. apply map_size_empty.
Qed.

(** X21. Once a valid interface has been added to a device that is not
    connected, [Connect] gets past the registry check: the first thing
    it does after the connectivity query is to call [getBrokerURL]. *)
Theorem Connect_after_AddInterface
    (d : Device M) (i : AstarteInterface) (n fuel : nat) (ch : chan) :
  interface_valid i ->
  IsConnected d = false ->
  exists rest,
    trace (world_of (Connect fuel (Some ch) (start (fst (AddInterface d i)) n)))
    = (poll d ++ Call_getBrokerURL :: rest)%list.
Proof.
  intros Hvalid Hconn. rewrite (AddInterface_valid d i Hvalid). cbn [fst].
  set (d' := set_interfaces d _).
  destruct (Connect_calls_getBrokerURL d' n fuel ch) as (rest & Htrace).
  - exact Hconn.
  - subst d'. cbn [set_interfaces interfaces].
    apply map_size_non_empty_iff, insert_non_empty.
  - exists rest. exact Htrace.
Qed.

(** X22. Once the only registered interface has been removed from a
    device that is not connected, [Connect] sends the no-interfaces error
    again; the name alone decides what is removed. *)
Theorem Connect_after_RemoveInterface
    (d : Device M) (x i : AstarteInterface) (n fuel : nat) (ch : chan) :
  interfaces d = {[ Name x := x ]} ->
  Name i = Name x ->
  IsConnected d = false ->
  Connect fuel (Some ch) (start (RemoveInterface d i) n)
  = Returned
      (mkWorld (RemoveInterface d i) n
         (poll d ++
          [Send ch (Some "Add at least an interface before attempting to connect")])).
Proof.
  intros Hreg Hname Hconn.
  rewrite Connect_empty_registry.
  - reflexivity.
  - exact Hconn.
  - unfold RemoveInterface. cbn [set_interfaces interfaces].
    rewrite Hreg, Hname, delete_singleton_eq. apply map_size_empty.
Qed.

End Lifecycle.

(** * The further properties on scripted collaborators *)

Section FurtherExamples.
Import interfaces Scripted.

Lemma AddInterface_nil_iff_valid_witness :
  interfaces (fst (AddInterface (V := astarte_validators) (fresh_device false) sensors))
    !! Name sensors = Some sensors.
Proof.
  apply (AddInterface_nil_iff_valid (V := astarte_validators)
           (fresh_device false) sensors).
  repeat split; repeat constructor.
Defined.

Lemma AddInterface_frame_witness :
  interfaces (fst (AddInterface (V := astarte_validators) (ready_device false) bare))
    !! "org.example.Sensors"
  = interfaces (ready_device false) !! "org.example.Sensors".
Proof.
  apply (AddInterface_frame (V := astarte_validators)
           (ready_device false) bare "org.example.Sensors").
  discriminate.
Defined.

Lemma RemoveInterface_by_name_witness :
  interfaces (RemoveInterface (ready_device false) sensors_v2)
    !! Name sensors_v2 = None /\
  RemoveInterface (ready_device false) sensors_v2
  = RemoveInterface (ready_device false) sensors.
Proof.
  destruct (RemoveInterface_by_name (ready_device false) sensors_v2 sensors
              "org.example.Bare") as (Hgone & _ & Hsame).
  - reflexivity.
  - discriminate.
  - split; [exact Hgone | exact Hsame].
Defined.

Lemma RemoveInterface_not_registered_witness :
  RemoveInterface (ready_device false) bare = ready_device false.
Proof.
  apply (RemoveInterface_not_registered (ready_device false) bare).
  reflexivity.
Defined.

Lemma RemoveInterface_after_AddInterface_witness :
  RemoveInterface
    (fst (AddInterface (V := astarte_validators) (ready_device false) sensors_v2))
    sensors_v2
  = RemoveInterface (ready_device false) sensors_v2.
Proof.
  apply (RemoveInterface_after_AddInterface (V := astarte_validators)
           (ready_device false) sensors_v2).
  repeat split; repeat constructor.
Defined.

Lemma registry_ok_preserved_witness :
  registry_ok (V := astarte_validators)
    (fst (AddInterface (V := astarte_validators) (fresh_device false) sensors)).
Proof.
  apply (registry_ok_preserved (V := astarte_validators)
           (fresh_device false) sensors).
  apply map_Forall_empty.
Defined.

Lemma AddInterface_without_mappings_witness :
  size (interfaces
          (fst (AddInterface (V := astarte_validators) (fresh_device false) bare)))
  <> 0%nat.
Proof.
  apply (AddInterface_without_mappings (V := astarte_validators)
           (fresh_device false) bare); reflexivity.
Defined.

Lemma newDevice_returns_fresh_device_witness :
  misc.IsValidAstarteDeviceID (DeviceIDRule := device_id_rule)
    "2TBn-jNESuuHamE2Zo1anA" = true /\
  clients_requested
    (fst (newDevice (M := ScriptedClient) (IDs := device_id_rule)
                    (NC := api_clients)
                    "2TBn-jNESuuHamE2Zo1anA" "test" "secret" "http://pairing"
                    "/var/lib/astarte"))
  = 1%nat.
Proof.
  destruct (newDevice_returns_fresh_device
              (M := ScriptedClient) (IDs := device_id_rule) (NC := api_clients)
              "2TBn-jNESuuHamE2Zo1anA" "test" "secret" "http://pairing"
              "/var/lib/astarte"
              (mkDevice "2TBn-jNESuuHamE2Zo1anA" "test" "/var/lib/astarte" None ∅
                 (Some {| client.urls := [(misc.Pairing, "http://pairing")];
                          client.token := "secret" |})
                 false)
              eq_refl)
    as (Hvalid & _ & _ & _ & _ & _ & _ & _ & Hone & _).
  split; [exact Hvalid | exact Hone].
Defined.

Lemma NewDevice_TempDir_failure_witness :
  NewDevice (M := ScriptedClient) (IDs := device_id_rule) (NC := api_clients)
            (FS := strict_tmpfs) "a/b" "test" "secret" "http://pairing"
  = ([Ioutil_TempDir "" "a/b" "" (Some "pattern contains path separator")],
     (None, Some "pattern contains path separator")).
Proof.
  apply (NewDevice_TempDir_failure
           (M := ScriptedClient) (IDs := device_id_rule) (NC := api_clients)
           (FS := strict_tmpfs) "a/b" "test" "secret" "http://pairing" ""
           "pattern contains path separator").
  reflexivity.
Defined.

Lemma NewDevice_uses_temporary_directory_witness :
  exists name,
    ioutil.TempDir (FileSystem := tmpfs) "" "2TBn-jNESuuHamE2Zo1anA" = (name, None) /\
    name = "/tmp/2TBn-jNESuuHamE2Zo1anA123456789".
Proof.
  destruct (NewDevice_uses_temporary_directory
              (M := ScriptedClient) (IDs := device_id_rule) (NC := api_clients)
              (FS := tmpfs)
              "2TBn-jNESuuHamE2Zo1anA" "test" "secret" "http://pairing"
              (mkDevice "2TBn-jNESuuHamE2Zo1anA" "test"
                 "/tmp/2TBn-jNESuuHamE2Zo1anA123456789" None ∅
                 (Some {| client.urls := [(misc.Pairing, "http://pairing")];
                          client.token := "secret" |})
                 false)
              eq_refl)
    as (name & Htmp & Hdir & _).
  exists name. split; [exact Htmp | symmetry; exact Hdir].
Defined.

Lemma Connect_already_connected_witness :
  run connected_empty_device 0 None ok_token None None 0
  = Returned (mkWorld connected_empty_device 0 [M_IsConnected; Send 7%nat None]).
Proof.
  apply (Connect_already_connected
           (Tok := scripted_token) (Cl := scripted_client)
           (DM := scripted_methods 0 broker None (inl (idle_client ok_token))
                    None None)
           0%nat 7%nat (start connected_empty_device 0)).
  reflexivity.
Defined.

Lemma Connect_autoreconnect_reaches_certificate_witness :
  exists pre rest,
    trace (world_of (run (ready_device true) 1 None ok_token None None 2))
    = (pre ++ Call_ensureCertificate :: rest)%list /\
    sends 7%nat pre = [].
Proof.
  apply (Connect_autoreconnect_reaches_certificate
           (Tok := scripted_token) (Cl := scripted_client)
           (DM := scripted_methods 1 broker None (inl (idle_client ok_token))
                    None None)
           (ready_device true) 0%nat 2%nat 7%nat).
  - reflexivity.
  - reflexivity.
  - vm_compute. discriminate.
  - reflexivity.
Defined.

Lemma Connect_timeout_witness :
  sends 7%nat
    (trace (world_of (run (ready_device false) 0 None late_token None None 1)))
  = [Some "Timed out while connecting to the Broker."].
Proof.
  apply (Connect_timeout
           (Tok := scripted_token) (Cl := scripted_client)
           (DM := scripted_methods 0 broker None (inl (idle_client late_token))
                    None None)
           (ready_device false) 0%nat 1%nat 7%nat broker
           (idle_client late_token)
           {| connected := false; handshake := late_token |} late_token);
    try reflexivity.
  - vm_compute. discriminate.
  - lia.
Defined.

Lemma Connect_client_initialisation_failure_witness :
  sends 7%nat
    (trace (world_of
       (Connect (Tok := scripted_token) (Cl := scripted_client)
                (DM := scripted_methods 0 broker None (inr "no TLS configuration")
                         None None)
                1 (Some 7%nat) (start (ready_device false) 0))))
  = [Some "no TLS configuration"].
Proof.
  apply (Connect_client_initialisation_failure
           (Tok := scripted_token) (Cl := scripted_client)
           (DM := scripted_methods 0 broker None (inr "no TLS configuration")
                    None None)
           (ready_device false) 0%nat 0%nat 1%nat 7%nat broker
           "no TLS configuration");
    try reflexivity.
  - vm_compute. discriminate.
  - right. reflexivity.
  - intros i Hi. lia.
  - lia.
Defined.

Lemma Connect_success_witness :
  IsConnected (Cl := scripted_client)
    (dev (world_of (run (ready_device true) 1 None ok_token None None 2)))
  = true.
Proof.
  destruct (Connect_success
              (Tok := scripted_token) (Cl := scripted_client)
              (DM := scripted_methods 1 broker None (inl (idle_client ok_token))
                       None None)
              (ready_device true) 0%nat 1%nat 2%nat 7%nat broker
              (idle_client ok_token)
              {| connected := true; handshake := ok_token |}
              {| connected := true; handshake := ok_token |}
              {| connected := true; handshake := ok_token |} ok_token)
    as (_ & Hconn & _).
  - reflexivity.
  - vm_compute. discriminate.
  - left. reflexivity.
  - intros i Hi. destruct i as [|i]; [discriminate | lia].
  - reflexivity.
  - lia.
  - reflexivity.
  - reflexivity.
  - reflexivity.
  - split; reflexivity.
  - reflexivity.
  - reflexivity.
  - exact Hconn.
Defined.

Lemma fresh_device_is_idle_witness :
  IsConnected (Cl := scripted_client)
    (mkDevice "2TBn-jNESuuHamE2Zo1anA" "test" "/var/lib/astarte" None ∅
       (Some {| client.urls := [(misc.Pairing, "http://pairing")];
                client.token := "secret" |})
       false)
  = false.
Proof.
  apply (fresh_device_is_idle
           (V := astarte_validators) (Tok := scripted_token)
           (Cl := scripted_client)
           (DM := scripted_methods 0 broker None (inl (idle_client ok_token))
                    None None)
           (IDs := device_id_rule) (NC := api_clients)
           "2TBn-jNESuuHamE2Zo1anA" "test" "secret" "http://pairing"
           "/var/lib/astarte").
  reflexivity.
Defined.

Lemma Connect_after_AddInterface_witness :
  exists rest,
    trace (world_of
       (run (fst (AddInterface (V := astarte_validators) (fresh_device false) sensors))
            0 None ok_token None None 1))
    = (Call_getBrokerURL :: rest)%list.
Proof.
  apply (Connect_after_AddInterface
           (V := astarte_validators) (Tok := scripted_token)
           (Cl := scripted_client)
           (DM := scripted_methods 0 broker None (inl (idle_client ok_token))
                    None None)
           (fresh_device false) sensors 0%nat 1%nat 7%nat).
  - repeat split; repeat constructor.
  - reflexivity.
Defined.

Lemma Connect_after_RemoveInterface_witness :
  run (RemoveInterface (ready_device false) sensors_v2) 0 None ok_token None None 1
  = Returned
      (mkWorld (RemoveInterface (ready_device false) sensors_v2) 0
         [Send 7%nat
            (Some "Add at least an interface before attempting to connect")]).
Proof.
  apply (Connect_after_RemoveInterface
           (Tok := scripted_token) (Cl := scripted_client)
           (DM := scripted_methods 0 broker None (inl (idle_client ok_token))
                    None None)
           (ready_device false) sensors sensors_v2 0%nat 1%nat 7%nat);
    reflexivity.
Defined.

Lemma Connect_delivers_witness :
  delivered 1 7%nat
    (trace (world_of (run (ready_device true) 0 None refused_token None None 1)))
  = [Some "connection refused"] /\
  (1%nat = 0%nat \/
   (1%nat = 1%nat /\ AutoReconnect (ready_device true) = true /\
    exists e,
      delivered 1 7%nat
        (trace (world_of
                  (run (ready_device true) 0 None refused_token None None 1)))
      = [Some e])).
Proof.
  split; [reflexivity|].
  apply (Connect_delivers
           (Tok := scripted_token) (Cl := scripted_client)
           (DM := scripted_methods 0 broker None (inl (idle_client refused_token))
                    None None)
           (ready_device true) 0%nat 1%nat 1%nat 7%nat).
  reflexivity.
Defined.

End FurtherExamples.
